(** * iterm2_bridge: colour resolution, run encoding and the command state machine

    A shallow embedding of [scripts/iterm2_bridge.py].  Python values are
    modelled as follows:
    - [int] as [Z], [str] as [string], [list] as [list];
    - the style and run dictionaries as [gmap string pyval];
    - an exception as the [Raised] constructor of [result];
    - the module globals [streaming_task] and [stop_event] as a record that
      is threaded through [process_command]. *)

From Stdlib Require Import ZArith String Ascii List Bool Lia.
From stdpp Require Import base option list gmap strings fin_maps.
Import ListNotations.

Local Open Scope string_scope.
Local Open Scope Z_scope.
#[local] Set Warnings "-register-all".

(** ** Exceptions *)

Inductive exn : Type :=
| IndexError
| AttributeError
| JSONDecodeError
| RPCException (msg : string).

Inductive result (A : Type) : Type :=
| Ok (a : A)
| Raised (e : exn).
Arguments Ok {A} a.
Arguments Raised {A} e.

Definition rbind {A B : Type} (r : result A) (k : A -> result B) : result B :=
  match r with
  | Ok a => k a
  | Raised e => Raised e
  end.

(** [l[i]] on a Python list: negative indices count from the end, anything
    out of range raises [IndexError]. *)
Definition py_index {A : Type} (l : list A) (i : Z) : result A :=
  let n := Z.of_nat (length l) in
  let j := if i <? 0 then i + n else i in
  if (0 <=? j) && (j <? n) then
    match nth_error l (Z.to_nat j) with
    | Some x => Ok x
    | None => Raised IndexError
    end
  else Raised IndexError.

(** ** Formatting: [f"{n:02x}"] *)

Definition hex_digit (d : Z) : ascii :=
  match d with
  | 0 => "0" | 1 => "1" | 2 => "2" | 3 => "3"
  | 4 => "4" | 5 => "5" | 6 => "6" | 7 => "7"
  | 8 => "8" | 9 => "9" | 10 => "a" | 11 => "b"
  | 12 => "c" | 13 => "d" | 14 => "e" | _ => "f"
  end%char.

Fixpoint hex_digits (fuel : nat) (n : Z) (acc : string) : string :=
  match fuel with
  | O => acc
  | S fuel' =>
      let acc' := String (hex_digit (n mod 16)) acc in
      if n / 16 =? 0 then acc' else hex_digits fuel' (n / 16) acc'
  end.

(** [format(n, "x")] for [0 <= n]. *)
Definition format_x (n : Z) : string :=
  hex_digits (S (Z.to_nat (Z.log2 n))) n "".

(** [format(n, "02x")]: zero padding to width 2 goes after the sign. *)
Definition format_02x (n : Z) : string :=
  if n <? 0 then "-" +:+ format_x (- n)
  else
    let s := format_x n in
    if (String.length s <? 2)%nat then "0" +:+ s else s.

(** ** iterm2.CellStyle *)

Inductive AlternateColor : Type :=
| DEFAULT
| REVERSED_DEFAULT
| SYSTEM_MESSAGE.

(** [CellStyle.Color]: exactly one of [is_rgb], [is_standard],
    [is_alternate] holds. *)
Inductive Color : Type :=
| ColorRGB (red green blue : Z)
| ColorStandard (standard : Z)
| ColorAlternate (alternate : AlternateColor).

Record CellStyle : Type := {
  fg_color : option Color;
  bg_color : option Color;
  bold : bool;
  italic : bool;
  underline : bool;
  strikethrough : bool;
  inverse : bool;
  faint : bool;
}.

(** ** Color resolution *)

Definition resolve_cell_color (color : option Color) (ansi_palette : list string)
  : result (option string) :=
  match color with
  | None => Ok None
  | Some (ColorRGB red green blue) =>
      Ok (Some ("#" +:+ format_02x red +:+ format_02x green +:+ format_02x blue))
  | Some (ColorStandard idx) =>
      if (0 <=? idx) && (idx <? 16) && (idx <? Z.of_nat (length ansi_palette)) then
        rbind (py_index ansi_palette idx) (fun c => Ok (Some c))
      else if (16 <=? idx) && (idx <? 232) then
        let idx := idx - 16 in
        let r := (idx / 36) * 51 in
        let g := ((idx mod 36) / 6) * 51 in
        let b := (idx mod 6) * 51 in
        Ok (Some ("#" +:+ format_02x r +:+ format_02x g +:+ format_02x b))
      else if (232 <=? idx) && (idx <? 256) then
        let v := (idx - 232) * 10 + 8 in
        Ok (Some ("#" +:+ format_02x v +:+ format_02x v +:+ format_02x v))
      else Ok None
  | Some (ColorAlternate alt) => Ok None
  end.

(** The color references that stand for the terminal's default: an absent
    color and the alternates ([DEFAULT] and its siblings). *)
Definition is_default_color (color : option Color) : bool :=
  match color with
  | None => true
  | Some (ColorAlternate _) => true
  | Some _ => false
  end.

(** ** Style dictionaries *)

(** The values stored in a style or run dictionary: a string or [True]. *)
Inductive pyval : Type :=
| PStr (s : string)
| PTrue.

#[global] Instance pyval_eq_dec : EqDecision pyval.
Proof. solve_decision. Defined.

(** Truthiness of a [str]. *)
Definition str_truthy (s : string) : bool :=
  match s with
  | EmptyString => false
  | String _ _ => true
  end.

(** [try: c = resolve_cell_color(...); if c: d[key] = c  except Exception: pass] *)
Definition set_color (key : string) (color : option Color) (ansi_palette : list string)
    (d : gmap string pyval) : gmap string pyval :=
  match resolve_cell_color color ansi_palette with
  | Ok (Some c) => if str_truthy c then <[key := PStr c]> d else d
  | Ok None => d
  | Raised _ => d
  end.

(** [if flag: d[key] = True] *)
Definition set_flag (key : string) (flag : bool) (d : gmap string pyval)
  : gmap string pyval :=
  if flag then <[key := PTrue]> d else d.

Definition style_to_dict (style : option CellStyle) (ansi_palette : list string)
  : gmap string pyval :=
  match style with
  | None => ∅
  | Some style =>
      let d : gmap string pyval := ∅ in
      let d := set_color "fg" (fg_color style) ansi_palette d in
      let d := set_color "bg" (bg_color style) ansi_palette d in
      let d := set_flag "b" (bold style) d in
      let d := set_flag "i" (italic style) d in
      let d := set_flag "u" (underline style) d in
      let d := set_flag "s" (strikethrough style) d in
      let d := set_flag "inv" (inverse style) d in
      let d := set_flag "f" (faint style) d in
      d
  end.

(** ** Screen contents *)

(** One grid cell: [line.string[x]] and [line.style_at(x)]. *)
Abbreviation Cell := (ascii * option CellStyle)%type.

(** [iterm2.LineContents], a row of cells. *)
Abbreviation LineContents := (list Cell).

(** [line.string] *)
Fixpoint line_string (line : LineContents) : string :=
  match line with
  | [] => ""
  | (char, _) :: rest => String char (line_string rest)
  end.

Record ScreenContents : Type := {
  lines : list LineContents;
  cursor_coord : Z * Z;
}.

(** ** Run encoding *)

(** Truthiness of a [dict]. *)
Definition dict_truthy (d : gmap string pyval) : bool :=
  negb (bool_decide (d = ∅)).

(** [run = {"t": current_text}; if current_style: run.update(current_style)] *)
Definition make_run (current_text : string) (current_style : option (gmap string pyval))
  : gmap string pyval :=
  let run : gmap string pyval := {["t" := PStr current_text]} in
  match current_style with
  | Some d => if dict_truthy d then d ∪ run else run
  | None => run
  end.

(** The local variables of the loop over one line. *)
Record Accum : Type := {
  runs : list (gmap string pyval);
  current_text : string;
  current_style : option (gmap string pyval);
}.

(** [if current_text: runs.append(run)] *)
Definition flush (a : Accum) : list (gmap string pyval) :=
  if str_truthy (current_text a)
  then (runs a ++ [make_run (current_text a) (current_style a)])%list
  else runs a.

(** [style_to_dict(style, ansi_palette) if style else {}] *)
Definition cell_style_dict (ansi_palette : list string) (c : Cell) : gmap string pyval :=
  match snd c with
  | Some style => style_to_dict (Some style) ansi_palette
  | None => ∅
  end.

(** The body of [for x in range(len(text))]. *)
Definition encode_step (ansi_palette : list string) (a : Accum) (c : Cell) : Accum :=
  let char := fst c in
  let style_dict := cell_style_dict ansi_palette c in
  if bool_decide (Some style_dict = current_style a) then
    {| runs := runs a;
       current_text := current_text a +:+ String char "";
       current_style := current_style a |}
  else
    {| runs := flush a;
       current_text := String char "";
       current_style := Some style_dict |}.

Definition encode_init : Accum :=
  {| runs := []; current_text := ""; current_style := None |}.

(** The body of [for i in range(num_lines)]: the runs of one line. *)
Definition encode_line (ansi_palette : list string) (line : LineContents)
  : list (gmap string pyval) :=
  if negb (str_truthy (line_string line)) then []
  else flush (fold_left (encode_step ansi_palette) line encode_init).

Definition process_screen_contents (contents : ScreenContents) (ansi_palette : list string)
  : list (list (gmap string pyval)) :=
  map (encode_line ansi_palette) (lines contents).

(** The text of a run, [run["t"]]. *)
Definition run_text (run : gmap string pyval) : string :=
  match run !! "t" with
  | Some (PStr s) => s
  | _ => ""
  end.

(** The style keys of a run: everything but ["t"]. *)
Definition run_style (run : gmap string pyval) : gmap string pyval :=
  delete "t" run.

(** The run that covers column [x]. *)
Fixpoint run_at (rs : list (gmap string pyval)) (x : nat) : option (gmap string pyval) :=
  match rs with
  | [] => None
  | r :: rest =>
      if (x <? String.length (run_text r))%nat then Some r
      else run_at rest (x - String.length (run_text r))
  end.

(** The texts of the runs, joined left to right. *)
Definition runs_text (rs : list (gmap string pyval)) : string :=
  fold_right String.append "" (map run_text rs).

(** The style dictionary of every column the runs cover, left to right. *)
Definition runs_styles (rs : list (gmap string pyval)) : list (gmap string pyval) :=
  flat_map (fun r => replicate (String.length (run_text r)) (run_style r)) rs.

(** The invariant of the loop over one line: the pending text is empty
    exactly before the first cell, and a pending style has no ["t"] key. *)
Definition accum_ok (a : Accum) : Prop :=
  match current_style a with
  | Some d => d !! "t" = None /\ current_text a <> ""
  | None => current_text a = "" /\ runs a = []
  end.

(** ** Profile colors *)

(** An [iterm2.Profile]: every accessor may raise. *)
Record Profile : Type := {
  foreground_color : result string;
  background_color : result string;
  cursor_color : result string;
  ansi_color : nat -> result string;   (* [ansi_<k>_color], k = 0..15 *)
}.

(** The dictionary built by [get_profile_colors]. *)
Record Palette : Type := {
  pal_fg : string;
  pal_bg : string;
  pal_cursor : string;
  pal_ansi : list string;
}.

(** [try: x = accessor.hex  except Exception: x = fallback] *)
Definition hex_or (r : result string) (fallback : string) : string :=
  match r with
  | Ok h => h
  | Raised _ => fallback
  end.

Definition get_profile_colors (profile : Profile) : Palette :=
  {| pal_fg := hex_or (foreground_color profile) "#c7c7c7";
     pal_bg := hex_or (background_color profile) "#000000";
     pal_cursor := hex_or (cursor_color profile) "#ffffff";
     pal_ansi := map (fun k => hex_or (ansi_color profile k) "#c7c7c7") (seq 0 16) |}.

(** ** Commands *)

(** The values [json.loads] returns (numbers with a fraction or an exponent
    are left out). *)
Inductive json : Type :=
| JNull
| JBool (b : bool)
| JInt (n : Z)
| JStr (s : string)
| JArr (items : list json)
| JObj (members : list (string * json)).

(** Truthiness of a loaded value. *)
Definition json_truthy (v : json) : bool :=
  match v with
  | JNull => false
  | JBool b => b
  | JInt n => negb (n =? 0)
  | JStr s => str_truthy s
  | JArr items => match items with [] => false | _ :: _ => true end
  | JObj members => match members with [] => false | _ :: _ => true end
  end.

(** A key of a loaded object; of a key that occurs twice the last one
    counts. *)
Fixpoint members_lookup (key : string) (members : list (string * json)) : option json :=
  match members with
  | [] => None
  | (k, v) :: rest =>
      match members_lookup key rest with
      | Some v' => Some v'
      | None => if String.eqb k key then Some v else None
      end
  end.

(** [cmd.get(key)]: [None] for a missing key, [AttributeError] when [cmd] is
    not a dict. *)
Definition json_get (cmd : json) (key : string) : result json :=
  match cmd with
  | JObj members => Ok (default JNull (members_lookup key members))
  | _ => Raised AttributeError
  end.

(** [v == "literal"] *)
Definition json_is_str (v : json) (lit : string) : bool :=
  match v with
  | JStr s => String.eqb s lit
  | _ => false
  end.

(** ** Sessions *)

Record Session : Type := {
  session_id : string;
  async_get_profile : result Profile;
  async_get_screen_contents : result (option ScreenContents);
  grid_size : result (Z * Z);   (* width, height *)
}.

(** [app.get_session_by_id(session_id)]: the first session with that id. *)
Definition get_session_by_id (app : list Session) (sid : json) : option Session :=
  match sid with
  | JStr s => find (fun x => String.eqb (session_id x) s) app
  | _ => None
  end.

(** ** Events written to stdout *)

(** The value interpolated at the end of an error message. *)
Inductive fmt_arg : Type :=
| FmtNone
| FmtJson (v : json)
| FmtExn (e : exn).

Inductive Event : Type :=
| Ready
| ProfileEvent (sessionId : json) (colors : Palette)
| ContentEvent (sessionId : json) (content : list (list (gmap string pyval)))
    (cursor : Z * Z) (cols rows : Z)
| ErrorEvent (message : string) (arg : fmt_arg)
| Stopped.

Definition is_error (ev : Event) : bool :=
  match ev with
  | ErrorEvent _ _ => true
  | _ => false
  end.

(** ** Globals *)

(** The task created for [stream_session(connection, session_id, ansi_palette)]. *)
Record Task : Type := {
  task_session_id : json;
  task_ansi_palette : list string;
  task_done : bool;   (* [Task.done()] *)
}.

(** [streaming_task] is [None] or a task; [stop_event] is [None] or an
    [asyncio.Event] with its flag. *)
Record Globals : Type := {
  streaming_task : option Task;
  stop_event : option bool;
}.

Definition initial_globals : Globals :=
  {| streaming_task := None; stop_event := None |}.

(** A poll task is alive. *)
Definition is_streaming (g : Globals) : bool :=
  match streaming_task g with
  | Some t => negb (task_done t)
  | None => false
  end.

(** Nothing is left to retire: no poll task is alive and no stop signal is
    waiting to be set. *)
Definition is_idle (g : Globals) : bool :=
  negb (is_streaming g) &&
  match stop_event g with
  | Some flag => flag
  | None => true
  end.

(** What the cancel sequence of a command leaves behind: the stop signal, if
    there is one, is set, and the poll task, if there is one, is done. *)
Definition retired (g : Globals) : Globals :=
  {| streaming_task :=
       match streaming_task g with
       | Some t => Some {| task_session_id := task_session_id t;
                           task_ansi_palette := task_ansi_palette t;
                           task_done := true |}
       | None => None
       end;
     stop_event := match stop_event g with
                   | Some _ => Some true
                   | None => None
                   end |}.

(** ** The command monad: globals, emitted events, exceptions *)

Definition Ctl (A : Type) : Type := Globals -> result A * Globals * list Event.

Definition ctl_ret {A : Type} (a : A) : Ctl A :=
  fun g => (Ok a, g, []).

Definition ctl_bind {A B : Type} (m : Ctl A) (k : A -> Ctl B) : Ctl B :=
  fun g =>
    match m g with
    | (Ok a, g1, out1) =>
        match k a g1 with
        | (r, g2, out2) => (r, g2, (out1 ++ out2)%list)
        end
    | (Raised e, g1, out1) => (Raised e, g1, out1)
    end.

#[global] Instance Ctl_ret : MRet Ctl := @ctl_ret.
#[global] Instance Ctl_bind : MBind Ctl := fun A B k m => ctl_bind m k.

Definition lift {A : Type} (r : result A) : Ctl A :=
  fun g => (r, g, []).

(** [try: m  except Exception as e: handler(e)] *)
Definition try_except {A : Type} (m : Ctl A) (handler : exn -> Ctl A) : Ctl A :=
  fun g =>
    match m g with
    | (Ok a, g1, out1) => (Ok a, g1, out1)
    | (Raised e, g1, out1) =>
        match handler e g1 with
        | (r, g2, out2) => (r, g2, (out1 ++ out2)%list)
        end
    end.

Definition emit (ev : Event) : Ctl unit :=
  fun g => (Ok tt, g, [ev]).

Definition emit_error (message : string) (arg : fmt_arg) : Ctl unit :=
  emit (ErrorEvent message arg).

Definition get_globals : Ctl Globals :=
  fun g => (Ok g, g, []).

Definition set_streaming_task (t : option Task) : Ctl unit :=
  fun g => (Ok tt, {| streaming_task := t; stop_event := stop_event g |}, []).

(** [if stop_event: stop_event.set()] *)
Definition stop_event_set : Ctl unit :=
  fun g =>
    (Ok tt,
     {| streaming_task := streaming_task g;
        stop_event := match stop_event g with
                      | Some _ => Some true
                      | None => None
                      end |},
     []).

(** [streaming_task.cancel()] followed by [await streaming_task] with
    [CancelledError] and [Exception] swallowed: the task is done afterwards.
    [CancelledError] is not an [Exception], so neither handler of
    [stream_session] runs and the retiring task writes nothing. *)
Definition cancel_and_await : Ctl unit :=
  fun g =>
    (Ok tt,
     {| streaming_task :=
          match streaming_task g with
          | Some t => Some {| task_session_id := task_session_id t;
                              task_ansi_palette := task_ansi_palette t;
                              task_done := true |}
          | None => None
          end;
        stop_event := stop_event g |},
     []).

(** [if cond: body] *)
Definition when (cond : bool) (body : Ctl unit) : Ctl unit :=
  if cond then body else ctl_ret tt.

(** [streaming_task and not streaming_task.done()] *)
Definition task_alive : Ctl bool :=
  fun g => (Ok (is_streaming g), g, []).

(** The initial content of [watch]: the body of its [try] block. *)
Definition emit_initial (session : Session) (sid : json) (ansi_palette : list string)
  : Ctl unit :=
  initial ← lift (async_get_screen_contents session);
  match initial with
  | Some initial =>
      let init_lines := process_screen_contents initial ansi_palette in
      let '(cols, rows) := match grid_size session with
                           | Ok (w, h) => (w, h)
                           | Raised _ => (80, 25)
                           end in
      emit (ContentEvent sid init_lines (cursor_coord initial) cols rows)
  | None => mret tt
  end.

(** [process_command(connection, cmd_str)]; [loaded] is the outcome of
    [json.loads(cmd_str.strip())] and [app] what [async_get_app] returns.
    The result is [True] to quit. *)
Definition process_command (app : list Session) (loaded : result json) : Ctl bool :=
  match loaded with
  | Raised JSONDecodeError =>
      emit_error "Invalid JSON" FmtNone;;
      mret false
  | Raised e => lift (Raised e)
  | Ok cmd =>
      action ← lift (json_get cmd "cmd");
      if json_is_str action "quit" then
        stop_event_set;;
        alive ← task_alive;
        when alive cancel_and_await;;
        mret true
      else if json_is_str action "stop" then
        stop_event_set;;
        alive ← task_alive;
        when alive (cancel_and_await;; set_streaming_task None);;
        emit Stopped;;
        mret false
      else if json_is_str action "watch" then
        sid ← lift (json_get cmd "sessionId");
        if negb (json_truthy sid) then
          emit_error "Missing sessionId" FmtNone;;
          mret false
        else
          stop_event_set;;
          alive ← task_alive;
          when alive cancel_and_await;;
          match get_session_by_id app sid with
          | None =>
              emit_error "Session not found: " (FmtJson sid);;
              mret false
          | Some session =>
              profile ← lift (async_get_profile session);
              let palette := get_profile_colors profile in
              let ansi_palette := pal_ansi palette in
              emit (ProfileEvent sid palette);;
              try_except (emit_initial session sid ansi_palette)
                (fun e => emit_error "Initial fetch failed: " (FmtExn e));;
              set_streaming_task
                (Some {| task_session_id := sid;
                         task_ansi_palette := ansi_palette;
                         task_done := false |});;
              mret false
          end
      else mret false
  end.

(** Commands. *)
Definition cmd_stop : result json := Ok (JObj [("cmd", JStr "stop")]).
Definition cmd_quit : result json := Ok (JObj [("cmd", JStr "quit")]).
Definition cmd_watch (sid : string) : result json :=
  Ok (JObj [("cmd", JStr "watch"); ("sessionId", JStr sid)]).

(** A command that is refused as malformed: a line that does not parse, or
    a [watch] whose [sessionId] is missing (or empty). *)
Definition malformed (loaded : result json) : bool :=
  match loaded with
  | Raised JSONDecodeError => true
  | Raised _ => false
  | Ok cmd =>
      match json_get cmd "cmd", json_get cmd "sessionId" with
      | Ok action, Ok sid => json_is_str action "watch" && negb (json_truthy sid)
      | _, _ => false
      end
  end.

(** ** Sample data *)

Definition mk_style (fg bg : option Color) (b i u s inv f : bool) : CellStyle :=
  {| fg_color := fg; bg_color := bg; bold := b; italic := i; underline := u;
     strikethrough := s; inverse := inv; faint := f |}.

Definition plain_style : CellStyle :=
  mk_style None None false false false false false false.

Definition bold_red_style : CellStyle :=
  mk_style (Some (ColorStandard 196)) None true false false false false false.

Definition default_fg_style : CellStyle :=
  mk_style (Some (ColorAlternate DEFAULT)) (Some (ColorStandard 4))
    false false true false false false.

Definition plain_line : LineContents :=
  [("a"%char, None); ("b"%char, Some plain_style)].

Definition default_fg_line : LineContents :=
  [("x"%char, Some bold_red_style); ("y"%char, Some default_fg_style)].

Definition sample_line : LineContents :=
  [("a"%char, Some plain_style); ("a"%char, Some plain_style);
   ("b"%char, Some bold_red_style); ("b"%char, Some bold_red_style);
   ("b"%char, Some bold_red_style); ("a"%char, None)].

Definition fallback_profile : Profile :=
  {| foreground_color := Raised AttributeError;
     background_color := Raised AttributeError;
     cursor_color := Raised AttributeError;
     ansi_color := fun _ => Raised AttributeError |}.

Definition sample_screen : ScreenContents :=
  {| lines := [[("a"%char, None); ("b"%char, None)]]; cursor_coord := (2, 0) |}.

Definition session_s1 : Session :=
  {| session_id := "s1";
     async_get_profile := Ok fallback_profile;
     async_get_screen_contents := Ok (Some sample_screen);
     grid_size := Ok (2, 1) |}.

Definition session_s2 : Session :=
  {| session_id := "s2";
     async_get_profile := Ok fallback_profile;
     async_get_screen_contents := Raised (RPCException "closed");
     grid_size := Raised AttributeError |}.

Definition sample_app : list Session := [session_s1; session_s2].

(** The globals once [watch s1] has been processed from the start. *)
Definition streaming_s1 : Globals :=
  snd (fst (process_command sample_app (cmd_watch "s1") initial_globals)).

(** ** Well-formed colors *)

(** A lowercase hexadecimal digit and its value. *)
Definition hex_digit_value (c : ascii) : option Z :=
  (if Ascii.eqb c "0" then Some 0 else if Ascii.eqb c "1" then Some 1
   else if Ascii.eqb c "2" then Some 2 else if Ascii.eqb c "3" then Some 3
   else if Ascii.eqb c "4" then Some 4 else if Ascii.eqb c "5" then Some 5
   else if Ascii.eqb c "6" then Some 6 else if Ascii.eqb c "7" then Some 7
   else if Ascii.eqb c "8" then Some 8 else if Ascii.eqb c "9" then Some 9
   else if Ascii.eqb c "a" then Some 10 else if Ascii.eqb c "b" then Some 11
   else if Ascii.eqb c "c" then Some 12 else if Ascii.eqb c "d" then Some 13
   else if Ascii.eqb c "e" then Some 14 else if Ascii.eqb c "f" then Some 15
   else None)%char.

(** The value of a string of exactly two hexadecimal digits. *)
Definition byte_of_hex (s : string) : option Z :=
  match s with
  | String hi (String lo EmptyString) =>
      match hex_digit_value hi, hex_digit_value lo with
      | Some h, Some l => Some (16 * h + l)
      | _, _ => None
      end
  | _ => None
  end.

(** A string of the form [#rrggbb] and the three components it denotes. *)
Definition parse_hex_color (s : string) : option (Z * Z * Z) :=
  match s with
  | String "#" (String r1 (String r2 (String g1 (String g2 (String b1 (String b2 EmptyString)))))) =>
      match byte_of_hex (String r1 (String r2 EmptyString)),
            byte_of_hex (String g1 (String g2 EmptyString)),
            byte_of_hex (String b1 (String b2 EmptyString)) with
      | Some r, Some g, Some b => Some (r, g, b)
      | _, _, _ => None
      end
  | _ => None
  end.

(** What [style_to_dict] writes under a color key: the resolved color when
    there is one and it is not the empty string. *)
Definition written_color (color : option Color) (ansi_palette : list string)
  : option string :=
  match resolve_cell_color color ansi_palette with
  | Ok (Some c) => if str_truthy c then Some c else None
  | Ok None => None
  | Raised _ => None
  end.

(** The entry of a flag: [True] when the flag is set, no entry otherwise. *)
Definition flag_value (flag : bool) : option pyval :=
  if flag then Some PTrue else None.

(** The keys a style dictionary can have. *)
Definition style_keys : list string :=
  ["fg"; "bg"; "b"; "i"; "u"; "s"; "inv"; "f"].

(** No two neighbours of a list are equal. *)
Fixpoint adjacent_differ {A : Type} (l : list A) : Prop :=
  match l with
  | [] => True
  | x :: rest =>
      match rest with
      | [] => True
      | y :: _ => x <> y /\ adjacent_differ rest
      end
  end.

(** What a reader of the runs sees column by column: the character and the
    style dictionary of the run that covers it. *)
Definition decode_runs (rs : list (gmap string pyval)) : list (ascii * gmap string pyval) :=
  combine (list_ascii_of_string (runs_text rs)) (runs_styles rs).

(** What the encoder looks at in a cell: its character and the style
    dictionary it resolves to. *)
Definition resolved_cell (ansi_palette : list string) (c : Cell) : ascii * gmap string pyval :=
  (fst c, cell_style_dict ansi_palette c).

(** [cols] and [rows] of a content event: the grid size of the session, or
    80 x 25 when the accessor raises. *)
Definition cols_rows (session : Session) : Z * Z :=
  match grid_size session with
  | Ok (w, h) => (w, h)
  | Raised _ => (80, 25)
  end.

(** The globals after a [watch] that went through: the new poll task, and
    the stop signal as the cancel sequence left it. *)
Definition watching (sid : json) (profile : Profile) (g : Globals) : Globals :=
  {| streaming_task :=
       Some {| task_session_id := sid;
               task_ansi_palette := pal_ansi (get_profile_colors profile);
               task_done := false |};
     stop_event := stop_event (retired g) |}.

(** ** The poll task *)

(** What one [await asyncio.wait_for(streamer.async_get(style=True), 2.0)]
    comes back with. *)
Inductive PollOutcome : Type :=
| PollTimeout                                    (* [asyncio.TimeoutError] *)
| PollUpdate (contents : option ScreenContents)  (* the value returned *)
| PollRaised (e : exn)                           (* an [Exception] *)
| PollCancelled.                                 (* [CancelledError] *)

(** One turn of the loop as the task sees it: the outcome of the wait and
    what [stop_event.is_set()] answers once the task runs again.  Nothing
    else runs until the next wait, so the test at the head of the loop sees
    the same flag. *)
Record Poll : Type := {
  poll_outcome : PollOutcome;
  poll_stop_set : bool;
}.

(** How the loop over the streamer ends. *)
Inductive LoopEnd : Type :=
| StillWaiting             (* no outcome yet for the current wait *)
| LoopExit                 (* [break], or the loop test failed *)
| LoopRaised (e : exn)
| LoopCancelled.

(** [while not stop_event.is_set(): ...] of [stream_session], over the
    outcomes of its waits. *)
Fixpoint poll_loop (session : Session) (session_id : json) (ansi_palette : list string)
    (stop_is_set : bool) (polls : list Poll) {struct polls} : list Event * LoopEnd :=
  if stop_is_set then ([], LoopExit)
  else
    match polls with
    | [] => ([], StillWaiting)
    | p :: rest =>
        match poll_outcome p with
        | PollTimeout =>
            if poll_stop_set p then ([], LoopExit)
            else poll_loop session session_id ansi_palette (poll_stop_set p) rest
        | PollUpdate None => ([], LoopExit)
        | PollUpdate (Some contents) =>
            if poll_stop_set p then ([], LoopExit)
            else
              let content := process_screen_contents contents ansi_palette in
              let '(cols, rows) := cols_rows session in
              let '(out, ending) :=
                poll_loop session session_id ansi_palette (poll_stop_set p) rest in
              (ContentEvent session_id content (cursor_coord contents) cols rows :: out,
               ending)
        | PollRaised e => ([], LoopRaised e)
        | PollCancelled => ([], LoopCancelled)
        end
    end.

(** The two [except] clauses of [stream_session]. *)
Definition stream_error (e : exn) : Event :=
  match e with
  | RPCException _ => ErrorEvent "Session disconnected: " (FmtExn e)
  | _ => ErrorEvent "Streaming error: " (FmtExn e)
  end.

(** One run of the coroutine [stream_session]: what it wrote, whether it
    replaced the global [stop_event] by a new [asyncio.Event], and whether
    it has returned. *)
Record StreamRun : Type := {
  written : list Event;
  new_stop_event : bool;
  returned : bool;
}.

(** [stream_session(connection, session_id, ansi_palette)]; [streamer] is
    what entering [session.get_screen_streamer(want_contents=True)] gives:
    an exception, or the outcomes of the waits so far. *)
Definition stream_session (app : list Session) (session_id : json)
    (ansi_palette : list string) (streamer : result (list Poll)) : StreamRun :=
  match get_session_by_id app session_id with
  | None =>
      {| written := [ErrorEvent "Session not found: " (FmtJson session_id)];
         new_stop_event := false;
         returned := true |}
  | Some session =>
      match streamer with
      | Raised e =>
          {| written := [stream_error e]; new_stop_event := true; returned := true |}
      | Ok polls =>
          match poll_loop session session_id ansi_palette false polls with
          | (out, StillWaiting) =>
              {| written := out; new_stop_event := true; returned := false |}
          | (out, LoopExit) =>
              {| written := out; new_stop_event := true; returned := true |}
          | (out, LoopRaised e) =>
              {| written := (out ++ [stream_error e])%list;
                 new_stop_event := true;
                 returned := true |}
          | (out, LoopCancelled) =>
              {| written := out; new_stop_event := true; returned := true |}
          end
      end
  end.

(** A wait that timed out while the stop signal was not set. *)
Definition idle_timeout (p : Poll) : bool :=
  match poll_outcome p with
  | PollTimeout => negb (poll_stop_set p)
  | _ => false
  end.

(** A content event for the session [sid]. *)
Definition is_frame_of (sid : json) (ev : Event) : Prop :=
  exists content cursor cols rows, ev = ContentEvent sid content cursor cols rows.

(** ** The stdin reader *)

(** The [while True] loop of [read_stdin] over the lines that arrive; the
    end of the list is the end of the input. *)
Fixpoint read_lines (app : list Session) (lines : list (result json)) : Ctl unit :=
  match lines with
  | [] => ctl_ret tt
  | line :: rest =>
      should_quit ← process_command app line;
      if (should_quit : bool) then ctl_ret tt else read_lines app rest
  end.

(** [read_stdin(connection)]: the loop, then the cleanup.  The cleanup sets
    the stop signal and calls [cancel()] on a task that is not done, without
    awaiting it; the result tells whether [cancel()] was called. *)
Definition read_stdin (app : list Session) (lines : list (result json)) : Ctl bool :=
  read_lines app lines;;
  stop_event_set;;
  task_alive.

(** [main(connection)] *)
Definition main (app : list Session) (lines : list (result json)) : Ctl bool :=
  emit Ready;;
  read_stdin app lines.

Definition update_poll (contents : ScreenContents) : Poll :=
  {| poll_outcome := PollUpdate (Some contents); poll_stop_set := false |}.

Definition timeout_poll : Poll :=
  {| poll_outcome := PollTimeout; poll_stop_set := false |}.

(** ** The cancel sequence *)





(** * Properties *)

(** Unfold one command down to its binds. *)
Ltac enter_command :=
  unfold process_command, mbind, Ctl_bind, ctl_bind, lift.

(** All shapes of the globals: task absent, done or alive; signal absent,
    set or not set. *)
Ltac globals_cases g :=
  destruct g as [[[? ? [|]]|] [[|]|]].


(** ** Strings *)

Lemma append_empty_r (s : string) : s +:+ "" = s.
Proof.
  induction s as [|c s IH]; [reflexivity|].
  change (String c (s +:+ "") = String c s). now rewrite IH.
Qed.

Lemma append_assoc (s1 s2 s3 : string) : (s1 +:+ s2) +:+ s3 = s1 +:+ (s2 +:+ s3).
Proof.
  induction s1 as [|c s1 IH]; [reflexivity|].
  change (String c ((s1 +:+ s2) +:+ s3) = String c (s1 +:+ (s2 +:+ s3))).
  now rewrite IH.
Qed.

Lemma length_append (s1 s2 : string) :
  String.length (s1 +:+ s2) = (String.length s1 + String.length s2)%nat.
Proof.
  induction s1 as [|c s1 IH]; [reflexivity|].
  change (S (String.length (s1 +:+ s2)) = S (String.length s1 + String.length s2)).
  now rewrite IH.
Qed.

Lemma str_truthy_true (s : string) : str_truthy s = true <-> s <> "".
Proof. destruct s; simpl; split; intros H; congruence. Qed.

Lemma str_truthy_snoc (s : string) (c : ascii) : str_truthy (s +:+ String c "") = true.
Proof. destruct s; reflexivity. Qed.

(** ** Style dictionaries *)

Lemma set_color_lookup_ne key k color pal (d : gmap string pyval) :
  key <> k -> set_color key color pal d !! k = d !! k.
Proof.
  intros Hne. unfold set_color.
  destruct (resolve_cell_color color pal) as [[c|]|e]; try reflexivity.
  destruct (str_truthy c); [now apply lookup_insert_ne | reflexivity].
Qed.

Lemma set_flag_lookup_ne key k flag (d : gmap string pyval) :
  key <> k -> set_flag key flag d !! k = d !! k.
Proof.
  intros Hne. unfold set_flag.
  destruct flag; [now apply lookup_insert_ne | reflexivity].
Qed.

Lemma style_to_dict_no_text style pal : style_to_dict style pal !! "t" = None.
Proof.
  destruct style as [st|]; simpl; [|apply lookup_empty].
  rewrite !set_flag_lookup_ne, !set_color_lookup_ne by discriminate.
  apply lookup_empty.
Qed.

Lemma cell_style_dict_no_text pal c : cell_style_dict pal c !! "t" = None.
Proof.
  unfold cell_style_dict. destruct (snd c); [apply style_to_dict_no_text | apply lookup_empty].
Qed.

(** ** Runs *)

Lemma run_text_make_run text (d : gmap string pyval) :
  d !! "t" = None -> run_text (make_run text (Some d)) = text.
Proof.
  intros Hd. unfold run_text, make_run.
  destruct (dict_truthy d).
  - rewrite lookup_union_r by exact Hd. now rewrite lookup_singleton_eq.
  - now rewrite lookup_singleton_eq.
Qed.

Lemma run_style_make_run text (d : gmap string pyval) :
  d !! "t" = None -> run_style (make_run text (Some d)) = d.
Proof.
  intros Hd. unfold run_style, make_run, dict_truthy.
  case_bool_decide as Hempty; simpl.
  - subst d. apply delete_singleton_eq.
  - rewrite delete_union, delete_singleton_eq, (delete_id d) by exact Hd.
    apply (right_id_L ∅ (∪)).
Qed.

Lemma runs_text_app (l1 l2 : list (gmap string pyval)) :
  runs_text (l1 ++ l2)%list = runs_text l1 +:+ runs_text l2.
Proof.
  unfold runs_text. induction l1 as [|r l1 IH]; [reflexivity|].
  cbn [app map fold_right]. now rewrite IH, append_assoc.
Qed.

Lemma runs_text_single (r : gmap string pyval) : runs_text [r] = run_text r.
Proof. unfold runs_text. cbn [map fold_right]. apply append_empty_r. Qed.

Lemma runs_styles_app (l1 l2 : list (gmap string pyval)) :
  runs_styles (l1 ++ l2)%list = (runs_styles l1 ++ runs_styles l2)%list.
Proof. unfold runs_styles. apply flat_map_app. Qed.

Lemma runs_styles_single (r : gmap string pyval) :
  runs_styles [r] = replicate (String.length (run_text r)) (run_style r).
Proof. unfold runs_styles. cbn [flat_map]. apply app_nil_r. Qed.

Section RunEncoder.

Variable ansi_palette : list string.

Lemma encode_step_same a c :
  current_style a = Some (cell_style_dict ansi_palette c) ->
  encode_step ansi_palette a c =
    {| runs := runs a;
       current_text := current_text a +:+ String (fst c) "";
       current_style := current_style a |}.
Proof.
  intros H. unfold encode_step. rewrite bool_decide_eq_true_2; [reflexivity | now symmetry].
Qed.

Lemma encode_step_diff a c :
  current_style a <> Some (cell_style_dict ansi_palette c) ->
  encode_step ansi_palette a c =
    {| runs := flush a;
       current_text := String (fst c) "";
       current_style := Some (cell_style_dict ansi_palette c) |}.
Proof.
  intros H. unfold encode_step. rewrite bool_decide_eq_false_2; [reflexivity | congruence].
Qed.

Lemma flush_pending a :
  current_text a <> "" ->
  flush a = (runs a ++ [make_run (current_text a) (current_style a)])%list.
Proof. intros H. unfold flush. now rewrite (proj2 (str_truthy_true _) H). Qed.

Lemma flush_nothing a : current_text a = "" -> flush a = runs a.
Proof. intros H. unfold flush. now rewrite H. Qed.

Lemma accum_ok_init : accum_ok encode_init.
Proof. split; reflexivity. Qed.

Lemma accum_ok_step a c : accum_ok a -> accum_ok (encode_step ansi_palette a c).
Proof.
  intros Hok. unfold encode_step. case_bool_decide as Heq.
  - unfold accum_ok in *. cbn [current_style current_text runs].
    rewrite <- Heq in *. destruct Hok as [Ht _]. split; [exact Ht|].
    destruct (current_text a); discriminate.
  - unfold accum_ok. cbn [current_style current_text].
    split; [apply cell_style_dict_no_text | discriminate].
Qed.

(** What one cell does to the runs that a flush would give. *)
Lemma flush_encode_step a c :
  accum_ok a ->
  let d := cell_style_dict ansi_palette c in
  (current_style a = Some d /\
   flush a = (runs a ++ [make_run (current_text a) (Some d)])%list /\
   flush (encode_step ansi_palette a c) =
     (runs a ++ [make_run (current_text a +:+ String (fst c) "") (Some d)])%list)
  \/
  (current_style a <> Some d /\
   flush (encode_step ansi_palette a c) =
     (flush a ++ [make_run (String (fst c) "") (Some d)])%list).
Proof.
  intros Hok d. destruct (decide (current_style a = Some d)) as [Heq|Hne].
  - left. split; [exact Heq|].
    unfold accum_ok in Hok. rewrite Heq in Hok. destruct Hok as [_ Hne].
    split.
    + rewrite flush_pending by exact Hne. now rewrite Heq.
    + rewrite encode_step_same by exact Heq. unfold flush.
      cbn [current_text current_style runs].
      now rewrite str_truthy_snoc, Heq.
  - right. split; [exact Hne|].
    rewrite encode_step_diff by exact Hne. reflexivity.
Qed.

Lemma runs_text_step a c :
  accum_ok a ->
  runs_text (flush (encode_step ansi_palette a c)) =
    runs_text (flush a) +:+ String (fst c) "".
Proof.
  intros Hok. pose proof (cell_style_dict_no_text ansi_palette c) as Ht.
  destruct (flush_encode_step a c Hok) as [(_ & H1 & H2)|(_ & H2)];
    rewrite H2; [rewrite H1|];
    rewrite !runs_text_app, !runs_text_single, !run_text_make_run by exact Ht.
  - symmetry. apply append_assoc.
  - reflexivity.
Qed.

Lemma runs_styles_step a c :
  accum_ok a ->
  runs_styles (flush (encode_step ansi_palette a c)) =
    (runs_styles (flush a) ++ [cell_style_dict ansi_palette c])%list.
Proof.
  intros Hok. pose proof (cell_style_dict_no_text ansi_palette c) as Ht.
  destruct (flush_encode_step a c Hok) as [(_ & H1 & H2)|(_ & H2)];
    rewrite H2; [rewrite H1|];
    rewrite !runs_styles_app, !runs_styles_single, !run_text_make_run,
      !run_style_make_run by exact Ht.
  - rewrite length_append. cbn [String.length].
    rewrite replicate_add. cbn [replicate]. now rewrite <- app_assoc.
  - reflexivity.
Qed.

Lemma nonempty_step a c :
  accum_ok a ->
  Forall (fun r => run_text r <> "") (flush a) ->
  Forall (fun r => run_text r <> "") (flush (encode_step ansi_palette a c)).
Proof.
  intros Hok Hall. pose proof (cell_style_dict_no_text ansi_palette c) as Ht.
  destruct (flush_encode_step a c Hok) as [(_ & H1 & H2)|(_ & H2)]; rewrite H2.
  - rewrite H1 in Hall. apply Forall_app in Hall as [Hall _].
    apply Forall_app. split; [exact Hall|].
    constructor; [|constructor]. rewrite run_text_make_run by exact Ht.
    destruct (current_text a); discriminate.
  - apply Forall_app. split; [exact Hall|].
    constructor; [|constructor]. rewrite run_text_make_run by exact Ht.
    discriminate.
Qed.

(** The loop over a whole line, from any state the loop can be in. *)
Lemma fold_encode_step line : forall a,
  accum_ok a ->
  let a' := fold_left (encode_step ansi_palette) line a in
  accum_ok a' /\
  runs_text (flush a') = runs_text (flush a) +:+ line_string line /\
  runs_styles (flush a') =
    (runs_styles (flush a) ++ map (cell_style_dict ansi_palette) line)%list /\
  (Forall (fun r => run_text r <> "") (flush a) ->
   Forall (fun r => run_text r <> "") (flush a')).
Proof.
  induction line as [|c line IH]; intros a Hok; cbn [fold_left].
  - cbn [line_string map]. rewrite append_empty_r, app_nil_r. tauto.
  - destruct (IH _ (accum_ok_step a c Hok)) as (Hok' & Htext & Hstyles & Hne).
    split; [exact Hok'|]. split; [|split].
    + rewrite Htext, runs_text_step by exact Hok.
      rewrite append_assoc. destruct c as [char style]. reflexivity.
    + rewrite Hstyles, runs_styles_step by exact Hok.
      now rewrite <- app_assoc.
    + intros Hall. apply Hne. now apply nonempty_step.
Qed.

Lemma encode_line_nil : encode_line ansi_palette [] = [].
Proof. reflexivity. Qed.

Lemma encode_line_cons c line :
  encode_line ansi_palette (c :: line) =
    flush (fold_left (encode_step ansi_palette) (c :: line) encode_init).
Proof. unfold encode_line. destruct c as [char style]. reflexivity. Qed.

End RunEncoder.

Lemma length_line_string (line : LineContents) :
  String.length (line_string line) = length line.
Proof.
  induction line as [|[char style] line IH]; [reflexivity|].
  cbn [line_string String.length length]. now rewrite IH.
Qed.

Lemma fold_encode_step_uniform pal A line : forall a,
  current_style a = Some A ->
  Forall (fun c => cell_style_dict pal c = A) line ->
  fold_left (encode_step pal) line a =
    {| runs := runs a;
       current_text := current_text a +:+ line_string line;
       current_style := Some A |}.
Proof.
  induction line as [|c line IH]; intros a Ha Hall; cbn [fold_left].
  - cbn [line_string]. rewrite append_empty_r, <- Ha. now destruct a.
  - apply Forall_cons_1 in Hall as [Hc Hall].
    rewrite IH; [|rewrite encode_step_same; cbn [current_style]; congruence|exact Hall].
    rewrite encode_step_same by congruence.
    cbn [runs current_text]. rewrite append_assoc.
    destruct c as [char style]. reflexivity.
Qed.

Lemma encode_line_styles pal line :
  runs_styles (encode_line pal line) = map (cell_style_dict pal) line.
Proof.
  destruct line as [|c line]; [reflexivity|].
  rewrite encode_line_cons.
  destruct (fold_encode_step pal (c :: line) encode_init (accum_ok_init))
    as (_ & _ & H & _).
  exact H.
Qed.

Lemma run_at_styles (rs : list (gmap string pyval)) : forall (x : nat) d,
  runs_styles rs !! x = Some d ->
  exists r, run_at rs x = Some r /\ run_style r = d.
Proof.
  induction rs as [|r rs IH]; intros x d Hx.
  - discriminate.
  - change (runs_styles (r :: rs))
      with (replicate (String.length (run_text r)) (run_style r) ++ runs_styles rs)%list in Hx.
    cbn [run_at]. destruct (Nat.ltb_spec x (String.length (run_text r))) as [Hlt|Hge].
    + rewrite lookup_app_l in Hx by now rewrite length_replicate.
      apply lookup_replicate in Hx as [-> _]. eauto.
    + rewrite lookup_app_r in Hx by now rewrite length_replicate.
      rewrite length_replicate in Hx. now apply IH.
Qed.

(** C3: a row whose cells resolve to the styles [A,A,B,B,B,A], with [A] and
    [B] different, is encoded as exactly three runs of lengths 2, 3 and 1,
    in that order, carrying the styles [A], [B] and [A]. *)
Theorem encode_line_two_three_one pal (line : LineContents) (A B : gmap string pyval) :
  map (cell_style_dict pal) line = [A; A; B; B; B; A] ->
  A <> B ->
  map (fun r => String.length (run_text r)) (encode_line pal line) = [2; 3; 1]%nat /\
  map run_style (encode_line pal line) = [A; B; A].
Proof.
  intros Hmap Hne.
  destruct line as [|c1 [|c2 [|c3 [|c4 [|c5 [|c6 [|c7 line]]]]]]]; try discriminate.
  cbn [map] in Hmap. injection Hmap as H1 H2 H3 H4 H5 H6.
  assert (HA : A !! "t" = None) by (rewrite <- H1; apply cell_style_dict_no_text).
  assert (HB : B !! "t" = None) by (rewrite <- H3; apply cell_style_dict_no_text).
  rewrite encode_line_cons. cbn [fold_left].
  rewrite (encode_step_diff pal encode_init c1) by discriminate.
  rewrite (encode_step_same pal _ c2) by (cbn [current_style]; congruence).
  rewrite (encode_step_diff pal _ c3) by (cbn [current_style]; congruence).
  rewrite (encode_step_same pal _ c4) by (cbn [current_style]; congruence).
  rewrite (encode_step_same pal _ c5) by (cbn [current_style]; congruence).
  rewrite (encode_step_diff pal _ c6) by (cbn [current_style]; congruence).
  rewrite H1, H3, H6.
  cbv [flush encode_init current_text current_style runs str_truthy String.append app map].
  rewrite !run_text_make_run, !run_style_make_run by assumption.
  split; reflexivity.
Qed.

Lemma encode_line_two_three_one_witness :
  map (fun r => String.length (run_text r)) (encode_line [] sample_line) = [2; 3; 1]%nat /\
  map run_style (encode_line [] sample_line) =
    [∅; style_to_dict (Some bold_red_style) []; ∅].
Proof.
  apply (encode_line_two_three_one [] sample_line ∅ (style_to_dict (Some bold_red_style) [])).
  - reflexivity.
  - intros H. apply (f_equal (fun d => d !! "b")) in H. vm_compute in H. discriminate H.
Defined.

(** C4: a row of N >= 1 cells that all resolve to one style is encoded as
    exactly one run, whose text is the row's text and has length N; a row of
    no cells is encoded as the empty list of runs. *)
Theorem encode_line_uniform pal (line : LineContents) (A : gmap string pyval) :
  Forall (fun c => cell_style_dict pal c = A) line ->
  ((1 <= length line)%nat ->
   exists r, encode_line pal line = [r] /\
             run_text r = line_string line /\
             String.length (run_text r) = length line /\
             run_style r = A) /\
  (length line = 0%nat -> encode_line pal line = []).
Proof.
  intros Hall. split.
  - intros Hlen. destruct line as [|c line]; [cbn in Hlen; lia|].
    assert (HA : A !! "t" = None).
    { apply Forall_cons_1 in Hall as [<- _]. apply cell_style_dict_no_text. }
    rewrite encode_line_cons. cbn [fold_left].
    apply Forall_cons_1 in Hall as [Hc Hall].
    rewrite (encode_step_diff pal encode_init c) by discriminate.
    rewrite (fold_encode_step_uniform pal A line) by (cbn [current_style]; congruence).
    cbn [runs current_text]. unfold flush. cbn [current_text current_style runs].
    destruct c as [char style].
    change (String char "" +:+ line_string line) with (line_string ((char, style) :: line)).
    cbn [line_string str_truthy app].
    eexists. split; [reflexivity|].
    rewrite run_text_make_run, run_style_make_run by exact HA.
    split; [reflexivity|]. split; [|reflexivity].
    apply (length_line_string ((char, style) :: line)).
  - intros Hlen. destruct line; [reflexivity | discriminate].
Qed.

Lemma encode_line_uniform_witness :
  exists r, encode_line [] plain_line = [r] /\
            run_text r = line_string plain_line /\
            String.length (run_text r) = length plain_line /\
            run_style r = ∅.
Proof.
  apply (encode_line_uniform [] plain_line ∅).
  - repeat constructor.
  - cbn. lia.
Defined.

(** C5: the runs of a row cover it without gaps or overlaps: their texts,
    joined in order, are the row's text, and no run has an empty text. *)
Theorem encode_line_covers pal (line : LineContents) :
  runs_text (encode_line pal line) = line_string line /\
  Forall (fun r => run_text r <> "") (encode_line pal line).
Proof.
  destruct line as [|c line]; [split; [reflexivity | constructor]|].
  rewrite encode_line_cons.
  destruct (fold_encode_step pal (c :: line) encode_init (accum_ok_init))
    as (_ & Htext & _ & Hne).
  split; [exact Htext | apply Hne; constructor].
Qed.

(** C6: when the foreground color of a cell is a default reference, the run
    that covers the cell has no ["fg"] key. *)
Theorem default_fg_omitted pal (line : LineContents) (x : nat) (char : ascii)
    (style : CellStyle) :
  line !! x = Some (char, Some style) ->
  is_default_color (fg_color style) = true ->
  exists r, run_at (encode_line pal line) x = Some r /\ r !! "fg" = None.
Proof.
  intros Hx Hdef.
  assert (Hd : runs_styles (encode_line pal line) !! x
               = Some (style_to_dict (Some style) pal)).
  { rewrite encode_line_styles.
    change (map (cell_style_dict pal) line) with (cell_style_dict pal <$> line).
    rewrite list_lookup_fmap, Hx. reflexivity. }
  apply run_at_styles in Hd as (r & Hr & Hstyle).
  exists r. split; [exact Hr|].
  assert (Hfg : run_style r !! "fg" = None).
  { rewrite Hstyle. cbn [style_to_dict].
    rewrite !set_flag_lookup_ne, set_color_lookup_ne by discriminate.
    unfold set_color.
    destruct (fg_color style) as [[ | |alt]|]; try discriminate Hdef;
      cbn [resolve_cell_color]; apply lookup_empty. }
  unfold run_style in Hfg. now rewrite lookup_delete_ne in Hfg by discriminate.
Qed.

Lemma default_fg_omitted_witness :
  exists r, run_at (encode_line [] default_fg_line) 1 = Some r /\ r !! "fg" = None.
Proof.
  apply (default_fg_omitted [] default_fg_line 1 "y"%char default_fg_style); reflexivity.
Defined.

(** ** Color resolution *)

Lemma py_index_in_range {A : Type} (l : list A) (i : Z) :
  0 <= i < Z.of_nat (length l) -> exists x, py_index l i = Ok x.
Proof.
  intros Hi. unfold py_index.
  replace (i <? 0) with false by (symmetry; apply Z.ltb_ge; lia).
  replace (0 <=? i) with true by (symmetry; apply Z.leb_le; lia).
  replace (i <? Z.of_nat (length l)) with true by (symmetry; apply Z.ltb_lt; lia).
  cbn [andb].
  destruct (nth_error l (Z.to_nat i)) as [x|] eqn:Hnth; [eauto|].
  apply nth_error_None in Hnth. lia.
Qed.

(** Resolution returns: the only indexing is guarded by the length test. *)
Lemma resolve_cell_color_returns color pal :
  exists v, resolve_cell_color color pal = Ok v.
Proof.
  destruct color as [[r g b|idx|alt]|]; cbn [resolve_cell_color]; eauto.
  destruct ((0 <=? idx) && (idx <? 16) && (idx <? Z.of_nat (length pal))) eqn:Hguard.
  - apply andb_true_iff in Hguard as [Hguard Hlen].
    apply andb_true_iff in Hguard as [Hlo _].
    apply Z.leb_le in Hlo. apply Z.ltb_lt in Hlen.
    destruct (py_index_in_range pal idx) as [c Hc]; [lia|].
    rewrite Hc. cbn [rbind]. eauto.
  - destruct ((16 <=? idx) && (idx <? 232)); [eauto|].
    destruct ((232 <=? idx) && (idx <? 256)); eauto.
Qed.

(** C1 (as amended): for a Standard reference the extended indices resolve
    to: 16 to #000000, 21 to #0000ff, 231 to #ffffff, 232 to #080808 and 255
    to #eeeeee; every index of the grayscale range 232..255 resolves to the
    value (idx-232)*10+8, used for r, g and b alike. *)
Theorem resolve_extended_indices pal idx :
  232 <= idx < 256 ->
  resolve_cell_color (Some (ColorStandard 16)) pal = Ok (Some "#000000") /\
  resolve_cell_color (Some (ColorStandard 21)) pal = Ok (Some "#0000ff") /\
  resolve_cell_color (Some (ColorStandard 231)) pal = Ok (Some "#ffffff") /\
  resolve_cell_color (Some (ColorStandard 232)) pal = Ok (Some "#080808") /\
  resolve_cell_color (Some (ColorStandard 255)) pal = Ok (Some "#eeeeee") /\
  resolve_cell_color (Some (ColorStandard idx)) pal =
    (let v := (idx - 232) * 10 + 8 in
     Ok (Some ("#" +:+ format_02x v +:+ format_02x v +:+ format_02x v))).
Proof.
  intros Hidx. repeat (split; [reflexivity|]).
  cbn [resolve_cell_color].
  replace (idx <? 16) with false by (symmetry; apply Z.ltb_ge; lia).
  replace (idx <? 232) with false by (symmetry; apply Z.ltb_ge; lia).
  replace (232 <=? idx) with true by (symmetry; apply Z.leb_le; lia).
  replace (idx <? 256) with true by (symmetry; apply Z.ltb_lt; lia).
  rewrite !andb_false_r. reflexivity.
Qed.

Lemma resolve_extended_indices_witness :
  resolve_cell_color (Some (ColorStandard 240)) [] = Ok (Some "#585858").
Proof.
  exact (proj2 (proj2 (proj2 (proj2 (proj2
    (resolve_extended_indices [] 240 (conj (Zle_bool_imp_le 232 240 eq_refl) eq_refl))))))).
Defined.

(** C1 as stated fails: index 255 resolves to #eeeeee, not to #ffffff. *)
Lemma resolve_255_is_not_white :
  resolve_cell_color (Some (ColorStandard 255)) (pal_ansi (get_profile_colors fallback_profile))
    <> Ok (Some "#ffffff").
Proof. vm_compute. discriminate. Qed.

(** C10: a Standard index below 16 that the supplied palette does not reach
    resolves to no override, so no color key is written for it; and color
    resolution returns for every reference and every palette. *)
Theorem resolve_standard_beyond_palette pal idx :
  0 <= idx < 16 ->
  Z.of_nat (length pal) <= idx ->
  resolve_cell_color (Some (ColorStandard idx)) pal = Ok None /\
  (forall key d, set_color key (Some (ColorStandard idx)) pal d = d) /\
  (forall color pal', exists v, resolve_cell_color color pal' = Ok v).
Proof.
  intros Hidx Hlen.
  assert (H : resolve_cell_color (Some (ColorStandard idx)) pal = Ok None).
  { cbn [resolve_cell_color].
    replace (idx <? Z.of_nat (length pal)) with false by (symmetry; apply Z.ltb_ge; lia).
    replace (16 <=? idx) with false by (symmetry; apply Z.leb_gt; lia).
    replace (232 <=? idx) with false by (symmetry; apply Z.leb_gt; lia).
    rewrite andb_false_r. reflexivity. }
  split; [exact H|]. split.
  - intros key d. unfold set_color. now rewrite H.
  - apply resolve_cell_color_returns.
Qed.

Lemma resolve_standard_beyond_palette_witness :
  resolve_cell_color (Some (ColorStandard 5)) ["#000000"; "#cd0000"] = Ok None.
Proof.
  apply (resolve_standard_beyond_palette ["#000000"; "#cd0000"] 5); cbn; lia.
Defined.

(** ** The command state machine *)

Lemma retired_idle g : is_idle (retired g) = true.
Proof. destruct g as [[[sid pal done]|] [flag|]]; reflexivity. Qed.

Lemma retired_of_idle g : is_idle g = true -> retired g = g.
Proof.
  destruct g as [[[sid pal done]|] [flag|]]; unfold is_idle, is_streaming; cbn;
    intros H; try destruct done; try destruct flag; try discriminate; reflexivity.
Qed.

Lemma stop_from g app :
  process_command app cmd_stop g =
    (Ok false,
     if is_streaming g
     then {| streaming_task := None; stop_event := stop_event (retired g) |}
     else {| streaming_task := streaming_task g; stop_event := stop_event (retired g) |},
     [Stopped]).
Proof.
  destruct g as [[[sid pal done]|] [flag|]]; try destruct done; reflexivity.
Qed.





Lemma watch_not_found app cmd sid g :
  json_get cmd "cmd" = Ok (JStr "watch") ->
  json_get cmd "sessionId" = Ok sid ->
  json_truthy sid = true ->
  get_session_by_id app sid = None ->
  process_command app (Ok cmd) g =
    (Ok false, retired g, [ErrorEvent "Session not found: " (FmtJson sid)]).
Proof.
  intros Hcmd Hsid Htruthy Hnone. enter_command.
  rewrite Hcmd. cbn [json_is_str String.eqb Ascii.eqb Bool.eqb].
  rewrite Hsid, Htruthy. cbn [negb]. rewrite Hnone.
  globals_cases g; reflexivity.
Qed.

(** The events of the initial content of a [watch]. *)
Lemma watch_found app cmd sid session profile g :
  json_get cmd "cmd" = Ok (JStr "watch") ->
  json_get cmd "sessionId" = Ok sid ->
  json_truthy sid = true ->
  get_session_by_id app sid = Some session ->
  async_get_profile session = Ok profile ->
  exists out,
    process_command app (Ok cmd) g =
      (Ok false,
       {| streaming_task :=
            Some {| task_session_id := sid;
                    task_ansi_palette := pal_ansi (get_profile_colors profile);
                    task_done := false |};
          stop_event := stop_event (retired g) |},
       ProfileEvent sid (get_profile_colors profile) :: out) /\
    (forall e, async_get_screen_contents session = Raised e ->
               out = [ErrorEvent "Initial fetch failed: " (FmtExn e)]).
Proof.
  intros Hcmd Hsid Htruthy Hfound Hprofile. enter_command.
  rewrite Hcmd. cbn [json_is_str String.eqb Ascii.eqb Bool.eqb].
  rewrite Hsid, Htruthy. cbn [negb]. rewrite Hfound, Hprofile.
  unfold try_except, emit_initial, mbind, Ctl_bind, ctl_bind, lift.
  destruct (async_get_screen_contents session) as [[initial|]|e];
    [destruct (grid_size session) as [[w h]|e]| |];
    eexists; (split; [globals_cases g; reflexivity|]);
    intros e' He'; try discriminate He'.
  now injection He' as ->.
Qed.

(** The scenario of a first [watch]: the profile, then the screen as it is,
    then the poll task. *)
Example watch_s1_from_start :
  process_command sample_app (cmd_watch "s1") initial_globals =
    (Ok false,
     {| streaming_task :=
          Some {| task_session_id := JStr "s1";
                  task_ansi_palette := pal_ansi (get_profile_colors fallback_profile);
                  task_done := false |};
        stop_event := None |},
     [ProfileEvent (JStr "s1") (get_profile_colors fallback_profile);
      ContentEvent (JStr "s1") [[{["t" := PStr "ab"]}]] (2, 0) 2 1]).
Proof. vm_compute. reflexivity. Qed.

(** C2 (as amended): a [watch] that names a session that does not exist
    writes one error event and leaves the controller idle.  Received while
    idle it changes nothing.  An activation that was running does not
    survive it: the cancel sequence runs before the session is looked up, so
    the stop signal is set and the poll task is done. *)
Theorem watch_unknown_session app cmd sid g :
  json_get cmd "cmd" = Ok (JStr "watch") ->
  json_get cmd "sessionId" = Ok sid ->
  json_truthy sid = true ->
  get_session_by_id app sid = None ->
  exists g',
    process_command app (Ok cmd) g =
      (Ok false, g', [ErrorEvent "Session not found: " (FmtJson sid)]) /\
    g' = retired g /\
    is_idle g' = true /\
    (is_idle g = true -> g' = g).
Proof.
  intros Hcmd Hsid Htruthy Hnone. exists (retired g).
  split; [now apply watch_not_found|]. split; [reflexivity|].
  split; [apply retired_idle | apply retired_of_idle].
Qed.

Lemma watch_unknown_session_witness :
  exists g',
    process_command sample_app (cmd_watch "gone") streaming_s1 =
      (Ok false, g', [ErrorEvent "Session not found: " (FmtJson (JStr "gone"))]) /\
    g' = retired streaming_s1 /\
    is_idle g' = true /\
    (is_idle streaming_s1 = true -> g' = streaming_s1).
Proof.
  apply (watch_unknown_session sample_app
           (JObj [("cmd", JStr "watch"); ("sessionId", JStr "gone")]) (JStr "gone"));
    reflexivity.
Defined.

(** C2 as stated fails: a [watch] for a session that does not exist, received
    while the poll task of [s1] is alive, changes the globals; the poll task
    of [s1] is done afterwards. *)
Lemma watch_unknown_session_retires_activation :
  is_streaming streaming_s1 = true /\
  get_session_by_id sample_app (JStr "gone") = None /\
  snd (fst (process_command sample_app (cmd_watch "gone") streaming_s1)) <> streaming_s1 /\
  is_streaming (snd (fst (process_command sample_app (cmd_watch "gone") streaming_s1))) = false.
Proof.
  split; [reflexivity|]. split; [reflexivity|]. split; [|reflexivity].
  intros H. apply (f_equal is_streaming) in H. vm_compute in H. discriminate H.
Qed.

(** C8: a malformed command (a line that does not parse, or a [watch]
    without a session id) writes exactly one error event and leaves the
    globals as they were; a [watch] for an existing session that follows it
    writes its [profile] event and starts the poll task. *)
Theorem malformed_command app loaded g :
  malformed loaded = true ->
  exists message arg,
    process_command app loaded g = (Ok false, g, [ErrorEvent message arg]) /\
    forall cmd sid session profile,
      json_get cmd "cmd" = Ok (JStr "watch") ->
      json_get cmd "sessionId" = Ok sid ->
      json_truthy sid = true ->
      get_session_by_id app sid = Some session ->
      async_get_profile session = Ok profile ->
      exists g' out,
        (process_command app loaded;; process_command app (Ok cmd)) g =
          (Ok false, g',
           ErrorEvent message arg :: ProfileEvent sid (get_profile_colors profile) :: out) /\
        is_streaming g' = true /\
        streaming_task g' =
          Some {| task_session_id := sid;
                  task_ansi_palette := pal_ansi (get_profile_colors profile);
                  task_done := false |}.
Proof.
  intros Hbad.
  assert (Hfirst : exists message arg,
             process_command app loaded g = (Ok false, g, [ErrorEvent message arg])).
  { destruct loaded as [cmd|e].
    - cbn [malformed] in Hbad.
      destruct (json_get cmd "cmd") as [action|] eqn:Hcmd; [|discriminate].
      destruct (json_get cmd "sessionId") as [sid|] eqn:Hsid; [|discriminate].
      apply andb_true_iff in Hbad as [Hwatch Hfalsy].
      destruct action as [| | |s| |]; try discriminate Hwatch.
      cbn [json_is_str] in Hwatch. apply String.eqb_eq in Hwatch. subst s.
      exists "Missing sessionId", FmtNone. enter_command.
      rewrite Hcmd. cbn [json_is_str String.eqb Ascii.eqb Bool.eqb].
      rewrite Hsid, Hfalsy. reflexivity.
    - destruct e; try discriminate Hbad.
      exists "Invalid JSON", FmtNone. reflexivity. }
  destruct Hfirst as (message & arg & Hfirst). exists message, arg.
  split; [exact Hfirst|].
  intros cmd sid session profile Hcmd Hsid Htruthy Hfound Hprofile.
  destruct (watch_found app cmd sid session profile g Hcmd Hsid Htruthy Hfound Hprofile)
    as (out & Hwatch & _).
  eexists _, out. split.
  - unfold mbind, Ctl_bind, ctl_bind. rewrite Hfirst, Hwatch. reflexivity.
  - split; reflexivity.
Qed.

Lemma malformed_command_witness :
  exists message arg,
    process_command sample_app (Raised JSONDecodeError) streaming_s1 =
      (Ok false, streaming_s1, [ErrorEvent message arg]).
Proof.
  destruct (malformed_command sample_app (Raised JSONDecodeError) streaming_s1 eq_refl)
    as (message & arg & H & _).
  exists message, arg. exact H.
Defined.

(** C9: when fetching the initial screen contents fails during a [watch],
    the controller writes the [profile] event and an error event, and still
    creates the poll task: it is streaming afterwards. *)
Theorem initial_fetch_failure app cmd sid session profile e g :
  json_get cmd "cmd" = Ok (JStr "watch") ->
  json_get cmd "sessionId" = Ok sid ->
  json_truthy sid = true ->
  get_session_by_id app sid = Some session ->
  async_get_profile session = Ok profile ->
  async_get_screen_contents session = Raised e ->
  exists g',
    process_command app (Ok cmd) g =
      (Ok false, g',
       [ProfileEvent sid (get_profile_colors profile);
        ErrorEvent "Initial fetch failed: " (FmtExn e)]) /\
    is_streaming g' = true /\
    streaming_task g' =
      Some {| task_session_id := sid;
              task_ansi_palette := pal_ansi (get_profile_colors profile);
              task_done := false |}.
Proof.
  intros Hcmd Hsid Htruthy Hfound Hprofile Hfetch.
  destruct (watch_found app cmd sid session profile g Hcmd Hsid Htruthy Hfound Hprofile)
    as (out & Hwatch & Hout).
  rewrite (Hout e Hfetch) in Hwatch.
  eexists. split; [exact Hwatch|]. split; reflexivity.
Qed.

Lemma initial_fetch_failure_witness :
  exists g',
    process_command sample_app (cmd_watch "s2") initial_globals =
      (Ok false, g',
       [ProfileEvent (JStr "s2") (get_profile_colors fallback_profile);
        ErrorEvent "Initial fetch failed: " (FmtExn (RPCException "closed"))]) /\
    is_streaming g' = true /\
    streaming_task g' =
      Some {| task_session_id := JStr "s2";
              task_ansi_palette := pal_ansi (get_profile_colors fallback_profile);
              task_done := false |}.
Proof.
  apply (initial_fetch_failure sample_app
           (JObj [("cmd", JStr "watch"); ("sessionId", JStr "s2")]) (JStr "s2")
           session_s2 fallback_profile (RPCException "closed") initial_globals);
    reflexivity.
Defined.

(** * Further properties *)

(** ** Hexadecimal formatting *)

Lemma bytes_forall (P : Z -> bool) :
  forallb P (map Z.of_nat (seq 0 256)) = true ->
  forall n, 0 <= n < 256 -> P n = true.
Proof.
  intros Hall n Hn. rewrite forallb_forall in Hall. apply Hall.
  rewrite <- (Z2Nat.id n) by lia. apply in_map. apply in_seq. lia.
Qed.

Lemma byte_of_hex_format n : 0 <= n < 256 -> byte_of_hex (format_02x n) = Some n.
Proof.
  intros Hn.
  apply (bytes_forall (fun n => bool_decide (byte_of_hex (format_02x n) = Some n)))
    in Hn; [now apply bool_decide_eq_true in Hn | vm_compute; reflexivity].
Qed.

Lemma format_02x_length n : 0 <= n < 256 -> String.length (format_02x n) = 2%nat.
Proof.
  intros Hn. pose proof (byte_of_hex_format n Hn) as H.
  destruct (format_02x n) as [|c1 [|c2 [|c3 s]]]; try discriminate H. reflexivity.
Qed.

Lemma append_same_length_inj (s1 s2 t1 t2 : string) :
  String.length s1 = String.length s2 ->
  s1 +:+ t1 = s2 +:+ t2 -> s1 = s2 /\ t1 = t2.
Proof.
  revert s2. induction s1 as [|c s1 IH]; intros [|c' s2] Hlen Heq; try discriminate Hlen.
  - split; [reflexivity | exact Heq].
  - change (String c (s1 +:+ t1) = String c' (s2 +:+ t2)) in Heq.
    injection Heq as -> Heq. injection Hlen as Hlen.
    destruct (IH s2 Hlen Heq) as [-> ->]. split; reflexivity.
Qed.

Lemma parse_hex_color_format r g b :
  0 <= r < 256 -> 0 <= g < 256 -> 0 <= b < 256 ->
  parse_hex_color ("#" +:+ format_02x r +:+ format_02x g +:+ format_02x b) = Some (r, g, b).
Proof.
  intros Hr Hg Hb.
  pose proof (byte_of_hex_format r Hr) as Hr'.
  pose proof (byte_of_hex_format g Hg) as Hg'.
  pose proof (byte_of_hex_format b Hb) as Hb'.
  destruct (format_02x r) as [|r1 [|r2 [|? ?]]]; try discriminate Hr'.
  destruct (format_02x g) as [|g1 [|g2 [|? ?]]]; try discriminate Hg'.
  destruct (format_02x b) as [|b1 [|b2 [|? ?]]]; try discriminate Hb'.
  cbv [String.append parse_hex_color]. now rewrite Hr', Hg', Hb'.
Qed.

(** ** Color resolution *)

(** X1: a true color whose components are bytes resolves to the string
    #rrggbb of its components, whatever the palette: reading the string
    back gives the components, so different true colors never resolve to
    the same string. *)
Theorem resolve_rgb_round_trip pal r g b :
  0 <= r < 256 -> 0 <= g < 256 -> 0 <= b < 256 ->
  exists s,
    resolve_cell_color (Some (ColorRGB r g b)) pal = Ok (Some s) /\
    String.length s = 7%nat /\
    parse_hex_color s = Some (r, g, b).
Proof.
  intros Hr Hg Hb. eexists. split; [reflexivity|]. split.
  - rewrite !length_append, !format_02x_length by assumption. reflexivity.
  - now apply parse_hex_color_format.
Qed.

Lemma resolve_rgb_round_trip_witness :
  exists s,
    resolve_cell_color (Some (ColorRGB 1 255 16)) [] = Ok (Some s) /\
    String.length s = 7%nat /\
    parse_hex_color s = Some (1, 255, 16).
Proof. apply (resolve_rgb_round_trip [] 1 255 16); lia. Defined.

(** X2: the color cube.  The index 16 + 36*r + 6*g + b, with r, g and b
    below 6, resolves to the color whose components are 51*r, 51*g and
    51*b, whatever the palette. *)
Theorem resolve_color_cube pal r g b :
  0 <= r < 6 -> 0 <= g < 6 -> 0 <= b < 6 ->
  resolve_cell_color (Some (ColorStandard (16 + 36 * r + 6 * g + b))) pal =
    Ok (Some ("#" +:+ format_02x (51 * r) +:+ format_02x (51 * g) +:+ format_02x (51 * b))) /\
  parse_hex_color ("#" +:+ format_02x (51 * r) +:+ format_02x (51 * g) +:+ format_02x (51 * b)) =
    Some (51 * r, 51 * g, 51 * b).
Proof.
  intros Hr Hg Hb.
  assert (H : resolve_cell_color (Some (ColorStandard (16 + 36 * r + 6 * g + b))) pal =
    Ok (Some ("#" +:+ format_02x (51 * r) +:+ format_02x (51 * g) +:+ format_02x (51 * b)))).
  { cbn [resolve_cell_color].
    replace (16 + 36 * r + 6 * g + b <? 16) with false by (symmetry; apply Z.ltb_ge; lia).
    replace (16 <=? 16 + 36 * r + 6 * g + b) with true by (symmetry; apply Z.leb_le; lia).
    replace (16 + 36 * r + 6 * g + b <? 232) with true by (symmetry; apply Z.ltb_lt; lia).
    rewrite andb_false_r. cbn [andb].
    replace (16 + 36 * r + 6 * g + b - 16) with (36 * r + 6 * g + b) by lia.
    assert (Hq : (36 * r + 6 * g + b) / 36 = r)
      by (symmetry; apply (Z.div_unique_pos _ 36 r (6 * g + b)); lia).
    assert (Hm : (36 * r + 6 * g + b) mod 36 = 6 * g + b)
      by (symmetry; apply (Z.mod_unique_pos _ 36 r (6 * g + b)); lia).
    assert (Hg' : (6 * g + b) / 6 = g)
      by (symmetry; apply (Z.div_unique_pos _ 6 g b); lia).
    assert (Hb' : (36 * r + 6 * g + b) mod 6 = b)
      by (symmetry; apply (Z.mod_unique_pos _ 6 (6 * r + g) b); lia).
    rewrite Hq, Hm, Hg', Hb'.
    now rewrite (Z.mul_comm r 51), (Z.mul_comm g 51), (Z.mul_comm b 51). }
  split; [exact H|]. apply parse_hex_color_format; lia.
Qed.

Lemma resolve_color_cube_witness :
  resolve_cell_color (Some (ColorStandard (16 + 36 * 5 + 6 * 0 + 0))) [] =
    Ok (Some ("#" +:+ format_02x (51 * 5) +:+ format_02x (51 * 0) +:+ format_02x (51 * 0))).
Proof. apply (resolve_color_cube [] 5 0 0); lia. Defined.

(** X3: a Standard index outside 0..255 resolves to no override, for every
    palette; a negative index in particular is not taken from the end of
    the palette. *)
Theorem resolve_standard_out_of_range pal idx :
  idx < 0 \/ 256 <= idx ->
  resolve_cell_color (Some (ColorStandard idx)) pal = Ok None /\
  forall key d, set_color key (Some (ColorStandard idx)) pal d = d.
Proof.
  intros Hidx.
  assert (H : resolve_cell_color (Some (ColorStandard idx)) pal = Ok None).
  { cbn [resolve_cell_color]. destruct Hidx as [Hneg|Hbig].
    - replace (0 <=? idx) with false by (symmetry; apply Z.leb_gt; lia).
      replace (16 <=? idx) with false by (symmetry; apply Z.leb_gt; lia).
      replace (232 <=? idx) with false by (symmetry; apply Z.leb_gt; lia).
      reflexivity.
    - replace (idx <? 16) with false by (symmetry; apply Z.ltb_ge; lia).
      replace (idx <? 232) with false by (symmetry; apply Z.ltb_ge; lia).
      replace (idx <? 256) with false by (symmetry; apply Z.ltb_ge; lia).
      rewrite !andb_false_r. reflexivity. }
  split; [exact H|]. intros key d. unfold set_color. now rewrite H.
Qed.

Lemma resolve_standard_out_of_range_witness :
  resolve_cell_color (Some (ColorStandard (-1))) ["#000000"; "#cd0000"] = Ok None.
Proof. apply (resolve_standard_out_of_range ["#000000"; "#cd0000"] (-1)). lia. Defined.

(** ** Profile colors *)

(** X4: the palette of a profile always has 16 ANSI entries, and a Standard
    index below 16 resolves against it to that ANSI color of the profile,
    or to #c7c7c7 when the profile does not give it. *)
Theorem resolve_against_profile profile idx :
  0 <= idx < 16 ->
  length (pal_ansi (get_profile_colors profile)) = 16%nat /\
  resolve_cell_color (Some (ColorStandard idx)) (pal_ansi (get_profile_colors profile)) =
    Ok (Some (hex_or (ansi_color profile (Z.to_nat idx)) "#c7c7c7")).
Proof.
  intros Hidx. split; [reflexivity|].
  assert (Hcases : idx = 0 \/ idx = 1 \/ idx = 2 \/ idx = 3 \/ idx = 4 \/ idx = 5 \/
                   idx = 6 \/ idx = 7 \/ idx = 8 \/ idx = 9 \/ idx = 10 \/ idx = 11 \/
                   idx = 12 \/ idx = 13 \/ idx = 14 \/ idx = 15) by lia.
  repeat (destruct Hcases as [->|Hcases]; [reflexivity|]). subst idx. reflexivity.
Qed.

Lemma resolve_against_profile_witness :
  resolve_cell_color (Some (ColorStandard 7)) (pal_ansi (get_profile_colors fallback_profile)) =
    Ok (Some "#c7c7c7").
Proof. apply (resolve_against_profile fallback_profile 7). lia. Defined.

(** ** Style dictionaries *)

Lemma set_flag_lookup key k flag (d : gmap string pyval) :
  set_flag key flag d !! k =
    if decide (k = key) then (if flag then Some PTrue else d !! k) else d !! k.
Proof.
  unfold set_flag. destruct flag; case_decide; subst;
    rewrite ?lookup_insert_eq, ?lookup_insert_ne by congruence; reflexivity.
Qed.

Lemma set_color_lookup key k color pal (d : gmap string pyval) :
  set_color key color pal d !! k =
    if decide (k = key)
    then match written_color color pal with
         | Some c => Some (PStr c)
         | None => d !! k
         end
    else d !! k.
Proof.
  unfold set_color, written_color.
  destruct (resolve_cell_color color pal) as [[c|]|e]; [destruct (str_truthy c)| |];
    case_decide; subst; rewrite ?lookup_insert_eq, ?lookup_insert_ne by congruence;
    reflexivity.
Qed.

Lemma style_to_dict_lookup_spec style pal k :
  style_to_dict (Some style) pal !! k =
    if decide (k = "fg") then PStr <$> written_color (fg_color style) pal
    else if decide (k = "bg") then PStr <$> written_color (bg_color style) pal
    else if decide (k = "b") then flag_value (bold style)
    else if decide (k = "i") then flag_value (italic style)
    else if decide (k = "u") then flag_value (underline style)
    else if decide (k = "s") then flag_value (strikethrough style)
    else if decide (k = "inv") then flag_value (inverse style)
    else if decide (k = "f") then flag_value (faint style)
    else None.
Proof.
  cbn [style_to_dict].
  rewrite !set_flag_lookup, !set_color_lookup, lookup_empty.
  unfold flag_value.
  repeat case_decide; subst; try discriminate;
    repeat match goal with
           | |- context [written_color ?c ?p] => destruct (written_color c p)
           | |- context [if ?b then _ else _] => destruct b
           end; reflexivity.
Qed.

(** X5: what a style dictionary holds.  A color key is present exactly when
    the color resolves to a non-empty string, which is then its value; a
    flag key is present exactly when the flag is true, with the value
    [True]; there are no other keys. *)
Theorem style_to_dict_entries style pal :
  let d := style_to_dict (Some style) pal in
  d !! "fg" = PStr <$> written_color (fg_color style) pal /\
  d !! "bg" = PStr <$> written_color (bg_color style) pal /\
  d !! "b" = flag_value (bold style) /\
  d !! "i" = flag_value (italic style) /\
  d !! "u" = flag_value (underline style) /\
  d !! "s" = flag_value (strikethrough style) /\
  d !! "inv" = flag_value (inverse style) /\
  d !! "f" = flag_value (faint style) /\
  (forall k, is_Some (d !! k) -> k ∈ style_keys) /\
  (forall k c, d !! k = Some (PStr c) -> c <> "").
Proof.
  cbv zeta. repeat (split; [apply style_to_dict_lookup_spec|]). split.
  - intros k [v Hk]. rewrite style_to_dict_lookup_spec in Hk. unfold style_keys.
    repeat case_decide; subst; try discriminate Hk; set_solver.
  - intros k c Hk. rewrite style_to_dict_lookup_spec in Hk.
    assert (Hw : forall color, PStr <$> written_color color pal = Some (PStr c) -> c <> "").
    { intros color. unfold written_color.
      destruct (resolve_cell_color color pal) as [[c'|]|e]; try discriminate.
      destruct (str_truthy c') eqn:Ht; try discriminate.
      cbn. intros [= ->]. now apply str_truthy_true. }
    unfold flag_value in Hk.
    repeat case_decide; subst; eauto;
      repeat match type of Hk with
             | context [if ?b then _ else _] => destruct b
             end; discriminate Hk.
Qed.

(** X6: two styles resolve to the same dictionary exactly when their written
    colors and all six flags agree; so cells are told apart by what is
    written for them, not by how their colors are referred to. *)
Theorem style_to_dict_eq_iff s1 s2 pal :
  style_to_dict (Some s1) pal = style_to_dict (Some s2) pal <->
  written_color (fg_color s1) pal = written_color (fg_color s2) pal /\
  written_color (bg_color s1) pal = written_color (bg_color s2) pal /\
  bold s1 = bold s2 /\ italic s1 = italic s2 /\ underline s1 = underline s2 /\
  strikethrough s1 = strikethrough s2 /\ inverse s1 = inverse s2 /\ faint s1 = faint s2.
Proof.
  assert (Hstr : forall o1 o2 : option string, PStr <$> o1 = PStr <$> o2 -> o1 = o2).
  { intros [x|] [y|]; cbn; congruence. }
  assert (Hflag : forall b1 b2, flag_value b1 = flag_value b2 -> b1 = b2).
  { intros [|] [|]; cbn; congruence. }
  split.
  - intros Heq.
    assert (H : forall k, style_to_dict (Some s1) pal !! k = style_to_dict (Some s2) pal !! k)
      by (intros k; now rewrite Heq).
    pose proof (H "fg") as Hfg. pose proof (H "bg") as Hbg. pose proof (H "b") as Hb.
    pose proof (H "i") as Hi. pose proof (H "u") as Hu. pose proof (H "s") as Hs.
    pose proof (H "inv") as Hinv. pose proof (H "f") as Hf.
    rewrite !style_to_dict_lookup_spec in Hfg, Hbg, Hb, Hi, Hu, Hs, Hinv, Hf.
    cbn in Hfg, Hbg, Hb, Hi, Hu, Hs, Hinv, Hf.
    repeat split; auto.
  - intros (Hfg & Hbg & Hb & Hi & Hu & Hs & Hinv & Hf).
    apply map_eq. intros k. rewrite !style_to_dict_lookup_spec.
    now rewrite Hfg, Hbg, Hb, Hi, Hu, Hs, Hinv, Hf.
Qed.

(** ** Run encoding *)

Lemma adjacent_differ_snoc {A : Type} (l : list A) (x : A) :
  adjacent_differ l ->
  (forall y, last l = Some y -> y <> x) ->
  adjacent_differ (l ++ [x])%list.
Proof.
  induction l as [|a l IH]; intros Hl Hlast; [exact I|].
  destruct l as [|b l].
  - cbn. split; [apply Hlast; reflexivity | exact I].
  - cbn [adjacent_differ] in Hl. destruct Hl as [Hab Hl].
    change (a <> b /\ adjacent_differ ((b :: l) ++ [x])%list).
    split; [exact Hab|]. apply IH; [exact Hl|]. intros y Hy. apply Hlast. exact Hy.
Qed.

Lemma adjacent_differ_step pal a c :
  accum_ok a ->
  adjacent_differ (map run_style (flush a)) ->
  adjacent_differ (map run_style (flush (encode_step pal a c))).
Proof.
  intros Hok Hadj. pose proof (cell_style_dict_no_text pal c) as Ht.
  destruct (flush_encode_step pal a c Hok) as [(_ & H1 & H2)|(Hne & H2)]; rewrite H2.
  - rewrite H1 in Hadj. rewrite map_app in *. cbn [map] in *.
    now rewrite run_style_make_run in * by exact Ht.
  - rewrite map_app. cbn [map]. rewrite run_style_make_run by exact Ht.
    apply adjacent_differ_snoc; [exact Hadj|].
    intros y Hy. unfold accum_ok in Hok.
    destruct (current_style a) as [d|] eqn:Hstyle.
    + destruct Hok as [Hd Htext].
      rewrite flush_pending, Hstyle, map_app in Hy by exact Htext. cbn [map] in Hy.
      rewrite last_snoc, run_style_make_run in Hy by exact Hd.
      injection Hy as <-. congruence.
    + destruct Hok as [Htext Hruns].
      rewrite flush_nothing, Hruns in Hy by exact Htext. discriminate Hy.
Qed.

Lemma adjacent_differ_fold pal line : forall a,
  accum_ok a ->
  adjacent_differ (map run_style (flush a)) ->
  adjacent_differ (map run_style (flush (fold_left (encode_step pal) line a))).
Proof.
  induction line as [|c line IH]; intros a Hok Hadj; cbn [fold_left]; [exact Hadj|].
  apply IH; [now apply accum_ok_step | now apply adjacent_differ_step].
Qed.

(** X7: the encoding is minimal: two neighbouring runs of a row never have
    the same style. *)
Theorem encode_line_adjacent_differ pal (line : LineContents) :
  adjacent_differ (map run_style (encode_line pal line)).
Proof.
  destruct line as [|c line]; [exact I|].
  rewrite encode_line_cons. apply adjacent_differ_fold; [apply accum_ok_init | exact I].
Qed.

Lemma line_string_chars (line : LineContents) :
  list_ascii_of_string (line_string line) = map fst line.
Proof.
  induction line as [|[char style] line IH]; [reflexivity|].
  cbn [line_string list_ascii_of_string map fst]. now rewrite IH.
Qed.

Lemma combine_map {A B C : Type} (f : A -> B) (g : A -> C) (l : list A) :
  combine (map f l) (map g l) = map (fun x => (f x, g x)) l.
Proof. induction l as [|x l IH]; [reflexivity|]. cbn. now rewrite IH. Qed.

Lemma encode_line_text pal (line : LineContents) :
  runs_text (encode_line pal line) = line_string line.
Proof.
  destruct line as [|c line]; [reflexivity|].
  rewrite encode_line_cons.
  destruct (fold_encode_step pal (c :: line) encode_init accum_ok_init) as (_ & H & _).
  exact H.
Qed.

Lemma encode_line_nonempty pal (line : LineContents) :
  Forall (fun r => run_text r <> "") (encode_line pal line).
Proof.
  destruct line as [|c line]; [constructor|].
  rewrite encode_line_cons.
  destruct (fold_encode_step pal (c :: line) encode_init accum_ok_init) as (_ & _ & _ & H).
  apply H. constructor.
Qed.

(** X8: the runs can be read back: column by column, the characters of the
    run texts and the styles of the runs are the characters of the row and
    the style dictionaries of its cells. *)
Theorem decode_encode_line pal (line : LineContents) :
  decode_runs (encode_line pal line) = map (resolved_cell pal) line.
Proof.
  unfold decode_runs, resolved_cell.
  rewrite encode_line_text, encode_line_styles, line_string_chars.
  apply combine_map.
Qed.

Lemma encode_step_resolved pal1 pal2 a c1 c2 :
  resolved_cell pal1 c1 = resolved_cell pal2 c2 ->
  encode_step pal1 a c1 = encode_step pal2 a c2.
Proof.
  unfold resolved_cell, encode_step. intros [= Hchar Hstyle]. now rewrite Hchar, Hstyle.
Qed.

Lemma line_string_resolved pal1 pal2 (l1 l2 : LineContents) :
  map (resolved_cell pal1) l1 = map (resolved_cell pal2) l2 ->
  line_string l1 = line_string l2.
Proof.
  revert l2. induction l1 as [|[ch1 st1] l1 IH]; intros [|[ch2 st2] l2] H;
    try discriminate H; [reflexivity|].
  cbn [map] in H. injection H as -> _ Hrest. cbn [line_string]. f_equal. now apply IH.
Qed.

(** X9: the runs of a row depend only on its characters and on the style
    dictionaries its cells resolve to: rows that agree on both, under
    whatever palettes, are encoded alike. *)
Theorem encode_line_resolved pal1 pal2 (l1 l2 : LineContents) :
  map (resolved_cell pal1) l1 = map (resolved_cell pal2) l2 ->
  encode_line pal1 l1 = encode_line pal2 l2.
Proof.
  intros H. unfold encode_line.
  rewrite (line_string_resolved pal1 pal2 l1 l2 H).
  destruct (negb (str_truthy (line_string l2))); [reflexivity|]. f_equal.
  generalize encode_init. revert l2 H.
  induction l1 as [|c1 l1 IH]; intros [|c2 l2] H a; try discriminate H; [reflexivity|].
  cbn [map] in H. injection H as Hchar Hstyle Hrest. cbn [fold_left].
  rewrite (encode_step_resolved pal1 pal2 a c1 c2)
    by (unfold resolved_cell; now rewrite Hchar, Hstyle).
  now apply IH.
Qed.

Lemma encode_line_resolved_witness :
  encode_line [] [("a"%char, None); ("b"%char, Some plain_style)] =
  encode_line ["#000000"] [("a"%char, Some plain_style); ("b"%char, None)].
Proof. apply encode_line_resolved. reflexivity. Defined.

Lemma runs_count_le (rs : list (gmap string pyval)) :
  Forall (fun r => run_text r <> "") rs ->
  (length rs <= String.length (runs_text rs))%nat.
Proof.
  induction 1 as [|r rs Hr _ IH]; [reflexivity|].
  change (runs_text (r :: rs)) with (run_text r +:+ runs_text rs).
  rewrite length_append. cbn [length].
  destruct (run_text r); [congruence | cbn [String.length]; lia].
Qed.

(** X10: a frame has one list of runs per line of the screen, in order; the
    run texts of a line add up to its number of cells, and a line never has
    more runs than cells. *)
Theorem process_screen_contents_lines contents pal :
  length (process_screen_contents contents pal) = length (lines contents) /\
  forall (i : nat) (line : LineContents),
    lines contents !! i = Some line ->
    process_screen_contents contents pal !! i = Some (encode_line pal line) /\
    String.length (runs_text (encode_line pal line)) = length line /\
    (length (encode_line pal line) <= length line)%nat.
Proof.
  unfold process_screen_contents. split; [apply length_map|].
  intros i line Hi.
  assert (Hlen : String.length (runs_text (encode_line pal line)) = length line)
    by (rewrite encode_line_text; apply length_line_string).
  split; [|split; [exact Hlen|]].
  - change (map (encode_line pal) (lines contents))
      with (encode_line pal <$> lines contents).
    now rewrite list_lookup_fmap, Hi.
  - rewrite <- Hlen. apply runs_count_le, encode_line_nonempty.
Qed.

Lemma process_screen_contents_lines_witness :
  process_screen_contents sample_screen [] !! 0%nat
    = Some (encode_line [] [("a"%char, None); ("b"%char, None)]).
Proof.
  apply (process_screen_contents_lines sample_screen [] ).
  reflexivity.
Defined.

(** X11: every run of a row is a dictionary with a non-empty string under
    ["t"]; its other keys are style keys, and they are the style dictionary
    of one of the cells of the row. *)
Theorem encode_line_run_shape pal (line : LineContents) (r : gmap string pyval) :
  r ∈ encode_line pal line ->
  (exists text, r !! "t" = Some (PStr text) /\ text <> "") /\
  (exists c, c ∈ line /\ run_style r = cell_style_dict pal c) /\
  (forall k, is_Some (r !! k) -> k = "t" \/ k ∈ style_keys).
Proof.
  intros Hr.
  assert (Htext : run_text r <> "").
  { pose proof (encode_line_nonempty pal line) as Hall.
    rewrite Forall_forall in Hall. now apply Hall. }
  assert (Hcell : exists c, c ∈ line /\ run_style r = cell_style_dict pal c).
  { assert (Hin : In (run_style r) (runs_styles (encode_line pal line))).
    { unfold runs_styles. apply in_flat_map. exists r.
      split; [now apply list_elem_of_In|].
      destruct (String.length (run_text r)) eqn:Hlen.
      - destruct (run_text r); [congruence | discriminate Hlen].
      - left. reflexivity. }
    rewrite encode_line_styles in Hin. apply in_map_iff in Hin as (c & Hc & Hin).
    exists c. split; [now apply list_elem_of_In | now symmetry]. }
  split; [|split; [exact Hcell|]].
  - unfold run_text in Htext. destruct (r !! "t") as [[text|]|]; try congruence. eauto.
  - intros k Hk. destruct (decide (k = "t")) as [->|Hne]; [now left | right].
    destruct Hcell as (c & _ & Hstyle).
    assert (Hk' : is_Some (cell_style_dict pal c !! k)).
    { rewrite <- Hstyle. unfold run_style. now rewrite lookup_delete_ne by congruence. }
    unfold cell_style_dict in Hk'. destruct (snd c) as [style|].
    + destruct Hk' as [v Hv]. rewrite style_to_dict_lookup_spec in Hv. unfold style_keys.
      repeat case_decide; subst; try discriminate Hv; set_solver.
    + rewrite lookup_empty in Hk'. now destruct Hk'.
Qed.

Lemma encode_line_run_shape_witness :
  exists text, ({["t" := PStr "ab"]} : gmap string pyval) !! "t" = Some (PStr text) /\ text <> "".
Proof.
  apply (encode_line_run_shape [] plain_line {["t" := PStr "ab"]}).
  vm_compute. left.
Defined.

(** ** More of the command state machine *)

Lemma cancel_sequence g :
  (stop_event_set;; alive ← task_alive; when alive cancel_and_await) g = (Ok tt, retired g, []).
Proof. globals_cases g; reflexivity. Qed.

Lemma process_unknown_action app cmd action g :
  json_get cmd "cmd" = Ok action ->
  json_is_str action "quit" = false ->
  json_is_str action "stop" = false ->
  json_is_str action "watch" = false ->
  process_command app (Ok cmd) g = (Ok false, g, []).
Proof.
  intros Hcmd Hquit Hstop Hwatch. enter_command.
  rewrite Hcmd, Hquit, Hstop, Hwatch. reflexivity.
Qed.

(** X12: a command whose ["cmd"] is none of [quit], [stop] and [watch] (or
    is missing) is ignored: nothing is written and the globals stay as they
    are. *)
Theorem unknown_command_ignored app cmd action g :
  json_get cmd "cmd" = Ok action ->
  json_is_str action "quit" = false ->
  json_is_str action "stop" = false ->
  json_is_str action "watch" = false ->
  process_command app (Ok cmd) g = (Ok false, g, []).
Proof. apply process_unknown_action. Qed.

Lemma unknown_command_ignored_witness :
  process_command sample_app (Ok (JObj [("cmd", JStr "pause")])) streaming_s1 =
    (Ok false, streaming_s1, []).
Proof.
  apply (unknown_command_ignored sample_app (JObj [("cmd", JStr "pause")]) (JStr "pause"));
    reflexivity.
Defined.

(** X13: a line that parses to something that is not an object makes
    [process_command] raise [AttributeError]: nothing is written and the
    globals stay as they are. *)
Theorem non_object_command_raises app cmd g :
  (forall members, cmd <> JObj members) ->
  process_command app (Ok cmd) g = (Raised AttributeError, g, []).
Proof.
  intros Hcmd. destruct cmd; try reflexivity. now destruct (Hcmd members).
Qed.

Lemma non_object_command_raises_witness :
  process_command sample_app (Ok (JArr [JStr "stop"])) streaming_s1 =
    (Raised AttributeError, streaming_s1, []).
Proof. apply non_object_command_raises. discriminate. Defined.

Lemma process_quit app cmd g :
  json_get cmd "cmd" = Ok (JStr "quit") ->
  process_command app (Ok cmd) g = (Ok true, retired g, []).
Proof.
  intros Hcmd. enter_command.
  rewrite Hcmd. cbn [json_is_str String.eqb Ascii.eqb Bool.eqb].
  globals_cases g; reflexivity.
Qed.

(** X14: [quit] returns [True] and writes nothing, not even [stopped]; the
    stop signal is set and the poll task is done afterwards, so the
    controller is idle. *)
Theorem quit_retires app cmd g :
  json_get cmd "cmd" = Ok (JStr "quit") ->
  process_command app (Ok cmd) g = (Ok true, retired g, []) /\
  is_idle (retired g) = true.
Proof. intros Hcmd. split; [now apply process_quit | apply retired_idle]. Qed.

Lemma quit_retires_witness :
  process_command sample_app cmd_quit streaming_s1 = (Ok true, retired streaming_s1, []).
Proof. apply (quit_retires sample_app (JObj [("cmd", JStr "quit")])). reflexivity. Defined.

Lemma json_is_str_true v lit : json_is_str v lit = true -> v = JStr lit.
Proof.
  destruct v; try discriminate. cbn [json_is_str]. intros H.
  apply String.eqb_eq in H. now subst.
Qed.

Lemma stop_command app cmd g :
  json_get cmd "cmd" = Ok (JStr "stop") ->
  process_command app (Ok cmd) g = process_command app cmd_stop g.
Proof.
  intros Hcmd. enter_command. rewrite Hcmd. reflexivity.
Qed.

Lemma watch_missing_id app cmd sid g :
  json_get cmd "cmd" = Ok (JStr "watch") ->
  json_get cmd "sessionId" = Ok sid ->
  json_truthy sid = false ->
  process_command app (Ok cmd) g = (Ok false, g, [ErrorEvent "Missing sessionId" FmtNone]).
Proof.
  intros Hcmd Hsid Hfalsy. enter_command.
  rewrite Hcmd. cbn [json_is_str String.eqb Ascii.eqb Bool.eqb].
  rewrite Hsid, Hfalsy. reflexivity.
Qed.

Lemma watch_profile_raises app cmd sid session e g :
  json_get cmd "cmd" = Ok (JStr "watch") ->
  json_get cmd "sessionId" = Ok sid ->
  json_truthy sid = true ->
  get_session_by_id app sid = Some session ->
  async_get_profile session = Raised e ->
  process_command app (Ok cmd) g = (Raised e, retired g, []).
Proof.
  intros Hcmd Hsid Htruthy Hfound Hprofile. enter_command.
  rewrite Hcmd. cbn [json_is_str String.eqb Ascii.eqb Bool.eqb].
  rewrite Hsid, Htruthy. cbn [negb]. rewrite Hfound, Hprofile.
  globals_cases g; reflexivity.
Qed.

Lemma json_get_sid cmd action : json_get cmd "cmd" = Ok action ->
  exists sid, json_get cmd "sessionId" = Ok sid.
Proof. destruct cmd; try discriminate. cbn. eauto. Qed.

(** X15: [process_command] returns [True] only for [quit]: no other line
    ends the reader loop by its return value. *)
Theorem only_quit_returns_true app loaded g g' out :
  process_command app loaded g = (Ok true, g', out) ->
  exists cmd, loaded = Ok cmd /\ json_get cmd "cmd" = Ok (JStr "quit").
Proof.
  intros Hrun. destruct loaded as [cmd|e]; [|destruct e; discriminate Hrun].
  exists cmd. split; [reflexivity|].
  destruct (json_get cmd "cmd") as [action|e] eqn:Hcmd.
  2:{ enter_command. revert Hrun. enter_command. rewrite Hcmd. discriminate. }
  destruct (json_is_str action "quit") eqn:Hquit.
  { now rewrite (json_is_str_true _ _ Hquit). }
  exfalso. destruct (json_is_str action "stop") eqn:Hstop.
  { apply json_is_str_true in Hstop. subst action.
    rewrite (stop_command app cmd g Hcmd), stop_from in Hrun. discriminate Hrun. }
  destruct (json_is_str action "watch") eqn:Hwatch.
  2:{ rewrite (process_unknown_action app cmd action g Hcmd Hquit Hstop Hwatch) in Hrun.
      discriminate Hrun. }
  apply json_is_str_true in Hwatch. subst action.
  destruct (json_get_sid cmd _ Hcmd) as [sid Hsid].
  destruct (json_truthy sid) eqn:Htruthy.
  2:{ rewrite (watch_missing_id app cmd sid g Hcmd Hsid Htruthy) in Hrun. discriminate Hrun. }
  destruct (get_session_by_id app sid) as [session|] eqn:Hfound.
  2:{ rewrite (watch_not_found app cmd sid g Hcmd Hsid Htruthy Hfound) in Hrun.
      discriminate Hrun. }
  destruct (async_get_profile session) as [profile|e] eqn:Hprofile.
  - destruct (watch_found app cmd sid session profile g Hcmd Hsid Htruthy Hfound Hprofile)
      as (out' & Hwatch & _).
    rewrite Hwatch in Hrun. discriminate Hrun.
  - rewrite (watch_profile_raises app cmd sid session e g Hcmd Hsid Htruthy Hfound Hprofile)
      in Hrun. discriminate Hrun.
Qed.

Lemma only_quit_returns_true_witness :
  exists cmd, cmd_quit = Ok cmd /\ json_get cmd "cmd" = Ok (JStr "quit").
Proof.
  apply (only_quit_returns_true sample_app cmd_quit initial_globals initial_globals []).
  reflexivity.
Defined.

Lemma watch_initial app cmd sid session profile contents g :
  json_get cmd "cmd" = Ok (JStr "watch") ->
  json_get cmd "sessionId" = Ok sid ->
  json_truthy sid = true ->
  get_session_by_id app sid = Some session ->
  async_get_profile session = Ok profile ->
  async_get_screen_contents session = Ok contents ->
  process_command app (Ok cmd) g =
    (Ok false, watching sid profile g,
     ProfileEvent sid (get_profile_colors profile) ::
     match contents with
     | Some initial =>
         [ContentEvent sid
            (process_screen_contents initial (pal_ansi (get_profile_colors profile)))
            (cursor_coord initial) (fst (cols_rows session)) (snd (cols_rows session))]
     | None => []
     end).
Proof.
  intros Hcmd Hsid Htruthy Hfound Hprofile Hcontents. enter_command.
  rewrite Hcmd. cbn [json_is_str String.eqb Ascii.eqb Bool.eqb].
  rewrite Hsid, Htruthy. cbn [negb]. rewrite Hfound, Hprofile.
  unfold try_except, emit_initial, mbind, Ctl_bind, ctl_bind, lift, cols_rows, watching.
  rewrite Hcontents.
  destruct contents as [initial|]; [destruct (grid_size session) as [[w h]|e]|];
    globals_cases g; reflexivity.
Qed.

(** X16: a [watch] for an existing session whose screen can be fetched
    writes the profile and then one content event: the screen encoded with
    the ANSI palette of that profile, the cursor of the screen, and the
    grid size of the session (80 x 25 when it cannot be read).  When there
    is no screen to show, the profile is all it writes.  Whatever task was
    there before, the poll task of the new session is alive afterwards. *)
Theorem watch_initial_frame app cmd sid session profile contents g :
  json_get cmd "cmd" = Ok (JStr "watch") ->
  json_get cmd "sessionId" = Ok sid ->
  json_truthy sid = true ->
  get_session_by_id app sid = Some session ->
  async_get_profile session = Ok profile ->
  async_get_screen_contents session = Ok contents ->
  process_command app (Ok cmd) g =
    (Ok false, watching sid profile g,
     ProfileEvent sid (get_profile_colors profile) ::
     match contents with
     | Some initial =>
         [ContentEvent sid
            (process_screen_contents initial (pal_ansi (get_profile_colors profile)))
            (cursor_coord initial) (fst (cols_rows session)) (snd (cols_rows session))]
     | None => []
     end) /\
  is_streaming (watching sid profile g) = true.
Proof. intros. split; [now apply watch_initial | reflexivity]. Qed.

Lemma watch_initial_frame_witness :
  process_command sample_app (cmd_watch "s1") streaming_s1 =
    (Ok false, watching (JStr "s1") fallback_profile streaming_s1,
     [ProfileEvent (JStr "s1") (get_profile_colors fallback_profile);
      ContentEvent (JStr "s1") [[{["t" := PStr "ab"]}]] (2, 0) 2 1]).
Proof.
  apply (watch_initial_frame sample_app
           (JObj [("cmd", JStr "watch"); ("sessionId", JStr "s1")]) (JStr "s1")
           session_s1 fallback_profile (Some sample_screen) streaming_s1);
    reflexivity.
Defined.

(** X17: when the profile of the watched session cannot be fetched, the
    exception leaves [process_command]: nothing is written, and since the
    cancel sequence has run already, the activation that was running is
    retired. *)
Theorem watch_profile_failure app cmd sid session e g :
  json_get cmd "cmd" = Ok (JStr "watch") ->
  json_get cmd "sessionId" = Ok sid ->
  json_truthy sid = true ->
  get_session_by_id app sid = Some session ->
  async_get_profile session = Raised e ->
  process_command app (Ok cmd) g = (Raised e, retired g, []) /\
  is_idle (retired g) = true.
Proof. intros. split; [now apply (watch_profile_raises app cmd sid session) | apply retired_idle]. Qed.

Lemma watch_profile_failure_witness :
  process_command
    [{| session_id := "s3";
        async_get_profile := Raised (RPCException "gone");
        async_get_screen_contents := Ok None;
        grid_size := Ok (80, 25) |}]
    (cmd_watch "s3") streaming_s1 =
    (Raised (RPCException "gone"), retired streaming_s1, []).
Proof.
  eapply (watch_profile_failure _
            (JObj [("cmd", JStr "watch"); ("sessionId", JStr "s3")]) (JStr "s3"));
    reflexivity.
Defined.



(** ** The poll task *)

Section PollLoop.

Variable session : Session.
Variable sid : json.
Variable pal : list string.

Lemma poll_loop_stopped polls : poll_loop session sid pal true polls = ([], LoopExit).
Proof. destruct polls; reflexivity. Qed.

Lemma poll_loop_frames polls : forall flag,
  Forall (is_frame_of sid) (fst (poll_loop session sid pal flag polls)).
Proof.
  induction polls as [|p rest IH]; intros [|]; cbn [poll_loop fst]; try constructor.
  destruct (poll_outcome p) as [|[contents|]|e|]; cbn [fst]; try constructor;
    destruct (poll_stop_set p); cbn [fst]; try constructor.
  - apply (IH false).
  - specialize (IH false). destruct (cols_rows session) as [cols rows].
    destruct (poll_loop session sid pal false rest) as [out ending].
    cbn [fst] in *. constructor; [|exact IH]. unfold is_frame_of. eauto.
Qed.

Lemma poll_loop_ended polls more : forall flag,
  snd (poll_loop session sid pal flag polls) <> StillWaiting ->
  poll_loop session sid pal flag (polls ++ more) = poll_loop session sid pal flag polls.
Proof.
  induction polls as [|p rest IH]; intros [|] Hend;
    rewrite ?poll_loop_stopped; try reflexivity.
  - now destruct Hend.
  - cbn [app poll_loop] in *.
    destruct (poll_outcome p) as [|[contents|]|e|]; try reflexivity;
      destruct (poll_stop_set p); try reflexivity.
    + now apply IH.
    + destruct (cols_rows session) as [cols rows].
      specialize (IH false).
      destruct (poll_loop session sid pal false rest) as [out ending].
      cbn [snd] in *. now rewrite IH.
Qed.

(** A wait that comes back with the stop signal set, not by raising, ends
    the loop and adds nothing. *)
Lemma poll_loop_stop_observed pre p post : forall flag,
  poll_stop_set p = true ->
  (forall e, poll_outcome p <> PollRaised e) ->
  poll_loop session sid pal flag (pre ++ p :: post) =
    (fst (poll_loop session sid pal flag pre),
     match snd (poll_loop session sid pal flag pre) with
     | StillWaiting =>
         match poll_outcome p with
         | PollCancelled => LoopCancelled
         | _ => LoopExit
         end
     | ending => ending
     end).
Proof.
  intros flag Hstop Hraised. revert flag.
  induction pre as [|q pre IH]; intros [|]; rewrite ?poll_loop_stopped; try reflexivity.
  - cbn [app poll_loop fst snd]. rewrite Hstop.
    destruct (poll_outcome p) as [|[contents|]|e|] eqn:Hp; try reflexivity.
    now destruct (Hraised e).
  - cbn [app poll_loop].
    destruct (poll_outcome q) as [|[contents|]|e|]; try reflexivity;
      destruct (poll_stop_set q); try reflexivity.
    + apply (IH false).
    + destruct (cols_rows session) as [cols rows]. rewrite (IH false).
      destruct (poll_loop session sid pal false pre) as [out ending]. reflexivity.
Qed.

Lemma poll_loop_timeouts polls : forall flag,
  poll_loop session sid pal flag (List.filter (fun p => negb (idle_timeout p)) polls) =
  poll_loop session sid pal flag polls.
Proof.
  induction polls as [|p rest IH]; intros [|]; rewrite ?poll_loop_stopped; try reflexivity.
  cbn [List.filter]. destruct (idle_timeout p) eqn:Hidle; cbn [negb];
    unfold idle_timeout in Hidle; cbn [poll_loop];
    destruct (poll_outcome p) as [|[contents|]|e|]; try discriminate Hidle;
    try reflexivity.
  - apply negb_true_iff in Hidle. rewrite Hidle. apply (IH false).
  - apply negb_false_iff in Hidle. now rewrite Hidle.
  - destruct (poll_stop_set p); [reflexivity|]. now rewrite (IH false).
Qed.

End PollLoop.

Lemma stream_error_is_error e : exists message arg, stream_error e = ErrorEvent message arg.
Proof. destruct e; cbn; eauto. Qed.

(** X19: what one run of the poll task writes: content events, all of them
    for the session the task was created for, and after them at most one
    error event, which is the last thing the task does. *)
Theorem stream_session_output app sid pal streamer :
  exists frames errors,
    written (stream_session app sid pal streamer) = (frames ++ errors)%list /\
    Forall (is_frame_of sid) frames /\
    (errors = [] \/
     (returned (stream_session app sid pal streamer) = true /\
      exists message arg, errors = [ErrorEvent message arg])).
Proof.
  unfold stream_session. destruct (get_session_by_id app sid) as [session|].
  2:{ exists [], [ErrorEvent "Session not found: " (FmtJson sid)].
      cbn. split; [reflexivity|]. split; [constructor|]. right. eauto. }
  destruct streamer as [polls|e].
  2:{ exists [], [stream_error e]. cbn. split; [reflexivity|]. split; [constructor|].
      right. split; [reflexivity|]. destruct (stream_error_is_error e) as (m & a & ->). eauto. }
  pose proof (poll_loop_frames session sid pal polls false) as Hframes.
  destruct (poll_loop session sid pal false polls) as [out [| |e|]]; cbn [fst] in Hframes.
  - exists out, []. cbn. rewrite app_nil_r. auto.
  - exists out, []. cbn. rewrite app_nil_r. auto.
  - exists out, [stream_error e]. cbn. split; [reflexivity|]. split; [exact Hframes|].
    right. split; [reflexivity|]. destruct (stream_error_is_error e) as (m & a & ->). eauto.
  - exists out, []. cbn. rewrite app_nil_r. auto.
Qed.

(** X20: once the poll task has returned, nothing that the streamer would
    still deliver is looked at: the run is the same however the outcomes go
    on. *)
Theorem stream_session_returned app sid pal polls more :
  returned (stream_session app sid pal (Ok polls)) = true ->
  stream_session app sid pal (Ok (polls ++ more)%list) = stream_session app sid pal (Ok polls).
Proof.
  unfold stream_session. destruct (get_session_by_id app sid) as [session|]; [|reflexivity].
  intros Hret.
  rewrite (poll_loop_ended session sid pal polls more false); [reflexivity|].
  destruct (poll_loop session sid pal false polls) as [out [| |e|]]; cbn in *;
    try discriminate.
Qed.

Lemma stream_session_returned_witness :
  stream_session sample_app (JStr "s1") []
    (Ok ([{| poll_outcome := PollUpdate None; poll_stop_set := false |}]
         ++ [update_poll sample_screen])%list) =
  stream_session sample_app (JStr "s1") []
    (Ok [{| poll_outcome := PollUpdate None; poll_stop_set := false |}]).
Proof. apply stream_session_returned. reflexivity. Defined.

(** X21: a wait that comes back (not by raising) while the stop signal is
    set ends the poll task without another event: an update that arrives
    together with the stop signal is dropped, and so is everything after
    it. *)
Theorem stream_session_stop_observed app sid pal pre p post :
  poll_stop_set p = true ->
  (forall e, poll_outcome p <> PollRaised e) ->
  written (stream_session app sid pal (Ok (pre ++ p :: post)%list)) =
    written (stream_session app sid pal (Ok pre)) /\
  returned (stream_session app sid pal (Ok (pre ++ p :: post)%list)) = true.
Proof.
  intros Hstop Hraised. unfold stream_session.
  destruct (get_session_by_id app sid) as [session|]; [|split; reflexivity].
  rewrite (poll_loop_stop_observed session sid pal pre p post false Hstop Hraised).
  destruct (poll_loop session sid pal false pre) as [out [| |e|]]; cbn [fst snd];
    try (split; reflexivity).
  destruct (poll_outcome p) as [|[contents|]|e|]; split; reflexivity.
Qed.

Lemma stream_session_stop_observed_witness :
  written (stream_session sample_app (JStr "s1") []
             (Ok ([update_poll sample_screen] ++
                  {| poll_outcome := PollUpdate (Some sample_screen); poll_stop_set := true |}
                  :: [update_poll sample_screen])%list)) =
  written (stream_session sample_app (JStr "s1") [] (Ok [update_poll sample_screen])).
Proof. apply stream_session_stop_observed; [reflexivity | discriminate]. Defined.

(** X22: a wait that times out while the stop signal is not set changes
    nothing: the run is the same with all such waits left out. *)
Theorem stream_session_timeouts app sid pal polls :
  stream_session app sid pal (Ok (List.filter (fun p => negb (idle_timeout p)) polls)) =
  stream_session app sid pal (Ok polls).
Proof.
  unfold stream_session. destruct (get_session_by_id app sid) as [session|]; [|reflexivity].
  now rewrite poll_loop_timeouts.
Qed.

(** X23: the poll task encodes an update exactly as [watch] encodes the
    initial screen: for one and the same screen, the content event that the
    task of a watched session writes is the content event that the [watch]
    wrote after the profile. *)
Theorem polled_frame_is_initial_frame app cmd sid session profile contents g :
  json_get cmd "cmd" = Ok (JStr "watch") ->
  json_get cmd "sessionId" = Ok sid ->
  json_truthy sid = true ->
  get_session_by_id app sid = Some session ->
  async_get_profile session = Ok profile ->
  async_get_screen_contents session = Ok (Some contents) ->
  exists frame,
    snd (process_command app (Ok cmd) g) =
      [ProfileEvent sid (get_profile_colors profile); frame] /\
    forall t, streaming_task (snd (fst (process_command app (Ok cmd) g))) = Some t ->
      written (stream_session app (task_session_id t) (task_ansi_palette t)
                 (Ok [update_poll contents])) = [frame].
Proof.
  intros Hcmd Hsid Htruthy Hfound Hprofile Hcontents.
  rewrite (watch_initial app cmd sid session profile (Some contents) g
             Hcmd Hsid Htruthy Hfound Hprofile Hcontents).
  eexists. split; [reflexivity|].
  cbn [fst snd watching streaming_task]. intros t [= <-].
  unfold stream_session. cbn [task_session_id task_ansi_palette]. rewrite Hfound.
  cbn [poll_loop update_poll poll_outcome poll_stop_set].
  destruct (cols_rows session) as [cols rows]. reflexivity.
Qed.

Lemma polled_frame_is_initial_frame_witness :
  exists frame,
    snd (process_command sample_app (cmd_watch "s1") initial_globals) =
      [ProfileEvent (JStr "s1") (get_profile_colors fallback_profile); frame] /\
    forall t,
      streaming_task (snd (fst (process_command sample_app (cmd_watch "s1") initial_globals)))
        = Some t ->
      written (stream_session sample_app (task_session_id t) (task_ansi_palette t)
                 (Ok [update_poll sample_screen])) = [frame].
Proof.
  apply (polled_frame_is_initial_frame sample_app
           (JObj [("cmd", JStr "watch"); ("sessionId", JStr "s1")]) (JStr "s1")
           session_s1 fallback_profile sample_screen initial_globals);
    reflexivity.
Defined.

(** ** Events of a command, and the reader *)

Lemma process_command_cases app loaded g :
  let out := snd (process_command app loaded g) in
  out = [] \/
  (exists message arg, out = [ErrorEvent message arg]) \/
  out = [Stopped] \/
  (exists sid colors rest,
     out = ProfileEvent sid colors :: rest /\
     (rest = [] \/
      (exists message arg, rest = [ErrorEvent message arg]) \/
      (exists content cursor cols rows, rest = [ContentEvent sid content cursor cols rows]))).
Proof.
  cbv zeta. destruct loaded as [cmd|e].
  2:{ destruct e; cbn; eauto 6. }
  destruct (json_get cmd "cmd") as [action|e] eqn:Hcmd.
  2:{ left. enter_command. now rewrite Hcmd. }
  destruct (json_is_str action "quit") eqn:Hquit.
  { apply json_is_str_true in Hquit. subst action. rewrite (process_quit app cmd g Hcmd). now left. }
  destruct (json_is_str action "stop") eqn:Hstop.
  { apply json_is_str_true in Hstop. subst action.
    rewrite (stop_command app cmd g Hcmd), stop_from. right. right. now left. }
  destruct (json_is_str action "watch") eqn:Hwatch.
  2:{ rewrite (process_unknown_action app cmd action g Hcmd Hquit Hstop Hwatch). now left. }
  apply json_is_str_true in Hwatch. subst action.
  destruct (json_get_sid cmd _ Hcmd) as [sid Hsid].
  destruct (json_truthy sid) eqn:Htruthy.
  2:{ rewrite (watch_missing_id app cmd sid g Hcmd Hsid Htruthy). right. left. eauto. }
  destruct (get_session_by_id app sid) as [session|] eqn:Hfound.
  2:{ rewrite (watch_not_found app cmd sid g Hcmd Hsid Htruthy Hfound). right. left. eauto. }
  destruct (async_get_profile session) as [profile|e] eqn:Hprofile.
  2:{ rewrite (watch_profile_raises app cmd sid session e g Hcmd Hsid Htruthy Hfound Hprofile).
      now left. }
  right. right. right.
  destruct (async_get_screen_contents session) as [contents|e] eqn:Hcontents.
  - rewrite (watch_initial app cmd sid session profile contents g
               Hcmd Hsid Htruthy Hfound Hprofile Hcontents).
    cbn [snd]. do 3 eexists. split; [reflexivity|].
    destruct contents as [initial|]; [right; right; eauto 6 | now left].
  - destruct (watch_found app cmd sid session profile g Hcmd Hsid Htruthy Hfound Hprofile)
      as (out & Hwatch & Hout).
    rewrite Hwatch, (Hout e Hcontents). cbn [snd]. do 3 eexists. split; [reflexivity|].
    right. left. eauto.
Qed.

(** X24: what one command can write: nothing, one error event, one
    [stopped] event, or a [profile] event followed by at most one more
    event, which is an error or a content event for the same session.  So
    a command never writes [ready], never more than two events, and no
    content event that does not follow the profile of its session. *)
Theorem process_command_events app loaded g :
  let out := snd (process_command app loaded g) in
  out = [] \/
  (exists message arg, out = [ErrorEvent message arg]) \/
  out = [Stopped] \/
  (exists sid colors rest,
     out = ProfileEvent sid colors :: rest /\
     (rest = [] \/
      (exists message arg, rest = [ErrorEvent message arg]) \/
      (exists content cursor cols rows, rest = [ContentEvent sid content cursor cols rows]))).
Proof. apply process_command_cases. Qed.

Lemma process_command_not_ready app loaded g :
  Forall (fun ev => ev <> Ready) (snd (process_command app loaded g)).
Proof.
  destruct (process_command_cases app loaded g)
    as [->|[(m & a & ->)|[->|(sid & colors & rest & -> & Hrest)]]];
    repeat constructor; try discriminate.
  destruct Hrest as [->|[(m & a & ->)|(c & cur & cols & rows & ->)]];
    repeat constructor; discriminate.
Qed.

Lemma read_lines_step app line rest g :
  read_lines app (line :: rest) g =
    match process_command app line g with
    | (Ok true, g1, out1) => (Ok tt, g1, out1)
    | (Ok false, g1, out1) =>
        match read_lines app rest g1 with
        | (r, g2, out2) => (r, g2, (out1 ++ out2)%list)
        end
    | (Raised e, g1, out1) => (Raised e, g1, out1)
    end.
Proof.
  cbn [read_lines]. unfold mbind, Ctl_bind, ctl_bind.
  destruct (process_command app line g) as [[[[|]|e] g1] out1]; try reflexivity.
  cbn. now rewrite app_nil_r.
Qed.

Lemma read_lines_not_ready app lines : forall g,
  Forall (fun ev => ev <> Ready) (snd (read_lines app lines g)).
Proof.
  induction lines as [|line rest IH]; intros g; [constructor|].
  rewrite read_lines_step.
  pose proof (process_command_not_ready app line g) as Hline.
  destruct (process_command app line g) as [[[[|]|e] g1] out1]; cbn [snd] in *;
    try exact Hline.
  specialize (IH g1). destruct (read_lines app rest g1) as [[r g2] out2].
  cbn [snd] in *. now apply Forall_app.
Qed.

Lemma main_unfold app lines g :
  main app lines g =
    match read_lines app lines g with
    | (Ok _, g1, out1) =>
        (Ok (is_streaming g1),
         {| streaming_task := streaming_task g1; stop_event := stop_event (retired g1) |},
         Ready :: out1)
    | (Raised e, g1, out1) => (Raised e, g1, Ready :: out1)
    end.
Proof.
  unfold main, read_stdin, mbind, Ctl_bind, ctl_bind, emit.
  destruct (read_lines app lines g) as [[[[]|e] g1] out1]; [|reflexivity].
  cbn. rewrite app_nil_r. globals_cases g1; reflexivity.
Qed.

(** X25: [main] writes [ready] first and never again, whatever lines arrive
    and whatever they lead to. *)
Theorem main_ready_once app lines g :
  exists out,
    snd (main app lines g) = Ready :: out /\
    Forall (fun ev => ev <> Ready) out.
Proof.
  rewrite main_unfold. pose proof (read_lines_not_ready app lines g) as H.
  destruct (read_lines app lines g) as [[[[]|e] g1] out1]; cbn [snd] in *; eauto.
Qed.

(** A line that does not return [False] ends the loop. *)
Lemma read_lines_cut app line pre post : forall g,
  (forall g1, fst (fst (process_command app line g1)) <> Ok false) ->
  read_lines app (pre ++ line :: post) g = read_lines app (pre ++ [line]) g.
Proof.
  intros g Hline. revert g. induction pre as [|first pre IH]; intros g.
  - cbn [List.app]. rewrite !read_lines_step. specialize (Hline g).
    destruct (process_command app line g) as [[[[|]|e] g1] out1]; try reflexivity.
    now destruct Hline.
  - cbn [List.app]. rewrite !read_lines_step.
    destruct (process_command app first g) as [[[[|]|e] g1] out1]; try reflexivity.
    now rewrite IH.
Qed.

(** X26: the lines that follow a [quit] are never processed: the run of
    [main] is the same without them. *)
Theorem nothing_after_quit app cmd pre post g :
  json_get cmd "cmd" = Ok (JStr "quit") ->
  main app (pre ++ Ok cmd :: post)%list g = main app (pre ++ [Ok cmd])%list g.
Proof.
  intros Hcmd. rewrite !main_unfold, (read_lines_cut app (Ok cmd) pre post g); [reflexivity|].
  intros g1. now rewrite (process_quit app cmd g1 Hcmd).
Qed.

Lemma nothing_after_quit_witness :
  main sample_app ([cmd_watch "s1"] ++ cmd_quit :: [cmd_watch "s2"; cmd_stop])%list
       initial_globals =
  main sample_app ([cmd_watch "s1"] ++ [cmd_quit])%list initial_globals.
Proof. apply (nothing_after_quit sample_app (JObj [("cmd", JStr "quit")])). reflexivity. Defined.

(** X27: a line that parses to something that is not an object ends
    [main] with [AttributeError]: the lines that follow are not processed and
    the cleanup of [read_stdin] does not run.  As the first line it leaves
    the globals untouched and [ready] is all that was written. *)
Theorem non_object_line_ends_main app v pre post g :
  (forall members, v <> JObj members) ->
  main app (pre ++ Ok v :: post)%list g = main app (pre ++ [Ok v])%list g /\
  main app (Ok v :: post) g = (Raised AttributeError, g, [Ready]).
Proof.
  intros Hv.
  assert (Hraise : forall g1, process_command app (Ok v) g1 = (Raised AttributeError, g1, [])).
  { intros g1. destruct v; try reflexivity. now destruct (Hv members). }
  split.
  - rewrite !main_unfold, (read_lines_cut app (Ok v) pre post g); [reflexivity|].
    intros g1. now rewrite Hraise.
  - rewrite main_unfold, read_lines_step, Hraise. reflexivity.
Qed.

Lemma non_object_line_ends_main_witness :
  main sample_app (Ok JNull :: [cmd_watch "s1"]) initial_globals =
    (Raised AttributeError, initial_globals, [Ready]).
Proof. apply (non_object_line_ends_main sample_app JNull [] [cmd_watch "s1"]). discriminate. Defined.
